(** * dsa-connect: the DSA facade of [src/index.js]

    A shallow embedding of the [DSA] class (both revisions of [index.js]
    that the repository carries) together with the small part of the
    JavaScript runtime its methods rely on: truthiness, [typeof], property
    reads, the [String]/[Number] coercions, loose equality against a number,
    promises and [async] functions.

    The collaborators that live in other modules ([internal.js],
    [utils/cast.js], [utils/txn.js], [resolvers/account.js], the address and
    ABI tables, and the web3 handle given to the constructor) are the fields
    of an environment record [Env]; every method of the facade is a function
    of that environment and of the object state. *)

From Stdlib Require Import ZArith QArith Qround Ascii.
From stdpp Require Import gmap strings list pretty.

#[local] Set Warnings "-register-all".
#[local] Open Scope Z_scope.

(* ===================================================================== *)
(** ** JavaScript values and the runtime operations the facade uses      *)
(* ===================================================================== *)

Module JS.

(** The numbers a value can hold are the integers and [NaN]; objects are
    finite maps from property names to values; [VErr name message] is an [Error] object of
    the given class ([Error], [TypeError], [ReferenceError]). *)
Inductive jsval :=
| VUndef
| VNull
| VBool (b : bool)
| VNum (n : Z)
| VNaN
| VStr (s : string)
| VArr (l : list jsval)
| VObj (o : gmap string jsval)
| VErr (name message : string).

(** A statement or call either completes normally or throws. *)
Inductive completion (A : Type) :=
| Normal (a : A)
| Throw (e : jsval).
Arguments Normal {A} a.
Arguments Throw {A} e.

Definition TypeError (msg : string) : jsval := VErr "TypeError" msg.
Definition ReferenceError (msg : string) : jsval := VErr "ReferenceError" msg.
Definition Error (msg : string) : jsval := VErr "Error" msg.

(** [!v] is [negb (truthy v)]. *)
Definition truthy (v : jsval) : bool :=
  match v with
  | VUndef | VNull | VNaN => false
  | VBool b => b
  | VNum n => negb (n =? 0)
  | VStr s => negb (String.eqb s "")
  | VArr _ | VObj _ | VErr _ _ => true
  end.

Definition typeof (v : jsval) : string :=
  match v with
  | VUndef => "undefined"
  | VNull | VArr _ | VObj _ | VErr _ _ => "object"
  | VBool _ => "boolean"
  | VNum _ | VNaN => "number"
  | VStr _ => "string"
  end.

(** [o.k] on an object held as a map: an absent property reads
    [undefined]. *)
Definition field (o : gmap string jsval) (k : string) : jsval :=
  default VUndef (o !! k).

Definition char_at (s : string) (i : nat) : jsval :=
  match String.get i s with
  | Some a => VStr (String a EmptyString)
  | None => VUndef
  end.

(** [v[i]] for an array index [i]. Reading a property of [undefined] or
    [null] throws; arrays answer by position, objects by the decimal name
    of the index, strings by character, other primitives with
    [undefined]. *)
Definition index (v : jsval) (i : nat) : completion jsval :=
  match v with
  | VUndef => Throw (TypeError "Cannot read properties of undefined")
  | VNull => Throw (TypeError "Cannot read properties of null")
  | VArr l => Normal (default VUndef (l !! i))
  | VObj o => Normal (field o (pretty i))
  | VStr s => Normal (char_at s i)
  | VBool _ | VNum _ | VNaN | VErr _ _ => Normal VUndef
  end.

(** [v.k] for a named property [k]. Arrays carry no named properties in
    this model apart from their elements. *)
Definition get (v : jsval) (k : string) : completion jsval :=
  match v with
  | VUndef => Throw (TypeError "Cannot read properties of undefined")
  | VNull => Throw (TypeError "Cannot read properties of null")
  | VObj o => Normal (field o k)
  | VErr _ m => Normal (if String.eqb k "message" then VStr m else VUndef)
  | VArr _ | VStr _ | VBool _ | VNum _ | VNaN => Normal VUndef
  end.

(** *** [String(v)] *)

Definition join_comma (parts : list string) : string :=
  match parts with
  | [] => ""
  | p :: ps => fold_left (fun acc q => acc +:+ "," +:+ q) ps p
  end.

Fixpoint ToString (v : jsval) : string :=
  match v with
  | VUndef => "undefined"
  | VNull => "null"
  | VBool true => "true"
  | VBool false => "false"
  | VNum n => pretty n
  | VNaN => "NaN"
  | VStr s => s
  | VArr l =>
      join_comma
        (map (fun x => match x with
                       | VUndef | VNull => ""
                       | _ => ToString x
                       end) l)
  | VObj _ => "[object Object]"
  | VErr n m => n +:+ ": " +:+ m
  end.

(** *** [Number(v)]

    A Number is an IEEE 754 double: [NaN], an infinity, or a finite value
    held as the rational it denotes (the two zeros are not told apart: the
    facade only compares numbers). [round64] is the Number value of a
    real: round to nearest, ties to even, with the gradual underflow and
    the overflow to infinity of the binary64 format. [VNum n] is the Number
    value of the integer [n]. *)

Inductive jsnum :=
| NumNaN
| NumInf (negative : bool)
| Num (q : Q).

Definition pow2 (e : Z) : Q :=
  if 0 <=? e then inject_Z (2 ^ e) else Qinv (inject_Z (2 ^ (- e))).

(** For [0 < x], the exponent [e] with [2^e <= x < 2^(e+1)]. *)
Definition floor_log2 (x : Q) : Z :=
  let k := Z.log2 (Qnum x) - Z.log2 (Zpos (Qden x)) in
  if Qle_bool (pow2 k) x then k else k - 1.

Definition round_half_even (x : Q) : Z :=
  let f := Qfloor x in
  match Qcompare (Qminus x (inject_Z f)) (1 # 2) with
  | Lt => f
  | Gt => f + 1
  | Eq => if Z.even f then f else f + 1
  end.

(** 53 significant bits; the exponent stops at -1022, below which the
    spacing stays [2^-1074]; a result of [2^1024] or more is infinite. *)
Definition round64_pos (x : Q) : jsnum :=
  let e := Z.max (floor_log2 x) (-1022) in
  let ulp := pow2 (e - 52) in
  let r := Qmult (inject_Z (round_half_even (Qdiv x ulp))) ulp in
  if Qle_bool (pow2 1024) r then NumInf false else Num (Qred r).

Definition num_opp (n : jsnum) : jsnum :=
  match n with
  | NumNaN => NumNaN
  | NumInf s => NumInf (negb s)
  | Num q => Num (Qred (Qopp q))
  end.

Definition round64 (x : Q) : jsnum :=
  match Qcompare x 0 with
  | Eq => Num 0
  | Gt => round64_pos x
  | Lt => num_opp (round64_pos (Qopp x))
  end.

(** *** [Number(s)] for a string [s] (StringToNumber)

    A string is read through its bytes (UTF-8). White space and line
    terminators are skipped on both sides; what remains is empty (0), a
    radix literal [0x..], [0o..], [0b..], or an optionally signed
    [Infinity] or decimal literal with an optional fraction and exponent;
    anything else is [NaN]. The value read is rounded once, from the exact
    value of the literal, whatever its length. *)

Fixpoint codes (s : string) : list Z :=
  match s with
  | EmptyString => []
  | String a r => Z.of_nat (nat_of_ascii a) :: codes r
  end.

(** TAB, LF, VT, FF, CR, SP, then U+00A0, U+1680, U+2000..U+200A, U+2028,
    U+2029, U+202F, U+205F, U+3000 and U+FEFF. *)
Fixpoint skip_space (s : list Z) : list Z :=
  match s with
  | 9 :: r | 10 :: r | 11 :: r | 12 :: r | 13 :: r | 32 :: r => skip_space r
  | 194 :: 160 :: r => skip_space r
  | 225 :: 154 :: 128 :: r => skip_space r
  | 226 :: 128 :: c :: r =>
      if ((128 <=? c) && (c <=? 138)) || (c =? 168) || (c =? 169) || (c =? 175)
      then skip_space r else s
  | 226 :: 129 :: 159 :: r => skip_space r
  | 227 :: 128 :: 128 :: r => skip_space r
  | 239 :: 187 :: 191 :: r => skip_space r
  | _ => s
  end.

Definition digit_of (base c : Z) : option Z :=
  let d := if (48 <=? c) && (c <=? 57) then c - 48
           else if (97 <=? c) && (c <=? 102) then c - 87
           else if (65 <=? c) && (c <=? 70) then c - 55
           else 16 in
  if d <? base then Some d else None.

(** The longest run of digits at the head of [s]: its value after [acc],
    the number of digits read after [len], and the rest of [s]. *)
Fixpoint read_digits (base : Z) (s : list Z) (acc len : Z) : Z * Z * list Z :=
  match s with
  | c :: r =>
      match digit_of base c with
      | Some d => read_digits base r (base * acc + d) (len + 1)
      | None => (acc, len, s)
      end
  | [] => (acc, len, s)
  end.

(** [e] or [E], an optional sign and at least one digit; nothing is
    consumed when no digit follows. *)
Definition read_exponent (s : list Z) : Z * list Z :=
  match s with
  | 101 :: r | 69 :: r =>
      let '(neg, r') := match r with
                        | 45 :: t => (true, t)
                        | 43 :: t => (false, t)
                        | _ => (false, r)
                        end in
      let '(e, len, rest) := read_digits 10 r' 0 0 in
      if len =? 0 then (0, s) else (if neg then - e else e, rest)
  | _ => (0, s)
  end.

Definition scale10 (m e : Z) : Q :=
  if 0 <=? e then inject_Z (m * 10 ^ e) else Qmake m (Z.to_pos (10 ^ (- e))).

(** Digits, an optional point with more digits, an optional exponent; at
    least one digit before or after the point. With [n] digits in all, the
    literal is below [10^(n+e)], so a power of ten beyond 400 either way
    is cut there: the value is already infinite, or already rounds to
    zero. *)
Definition read_decimal (s : list Z) : option (Q * list Z) :=
  let '(i, ilen, r1) := read_digits 10 s 0 0 in
  let '(f, flen, r2) := match r1 with
                        | 46 :: t => read_digits 10 t i 0
                        | _ => (i, -1, r1)
                        end in
  if (ilen =? 0) && (flen <=? 0) then None
  else let '(e, rest) := read_exponent r2 in
       let places := Z.max flen 0 in
       let e := Z.max (Z.min (e - places) 400) (- 400 - (ilen + places)) in
       Some (scale10 f e, rest).

Definition infinity_word : list Z := codes "Infinity".

Definition read_unsigned (s : list Z) : option (jsnum * list Z) :=
  if bool_decide (take 8 s = infinity_word) then Some (NumInf false, drop 8 s)
  else '(q, rest) ← read_decimal s; Some (round64 q, rest).

Definition read_radix (base : Z) (s : list Z) : option (jsnum * list Z) :=
  let '(n, len, rest) := read_digits base s 0 0 in
  if len =? 0 then None else Some (round64 (inject_Z n), rest).

(** A radix literal takes no sign. *)
Definition read_numeric (s : list Z) : option (jsnum * list Z) :=
  match s with
  | 48 :: 120 :: r | 48 :: 88 :: r => read_radix 16 r
  | 48 :: 111 :: r | 48 :: 79 :: r => read_radix 8 r
  | 48 :: 98 :: r | 48 :: 66 :: r => read_radix 2 r
  | 45 :: r => '(n, rest) ← read_unsigned r; Some (num_opp n, rest)
  | 43 :: r => read_unsigned r
  | _ => read_unsigned s
  end.

Definition StringToNumber (s : string) : jsnum :=
  match skip_space (codes s) with
  | [] => Num 0
  | t => match read_numeric t with
         | Some (n, rest) => match skip_space rest with
                             | [] => n
                             | _ => NumNaN
                             end
         | None => NumNaN
         end
  end.

Definition ToNumber (v : jsval) : jsnum :=
  match v with
  | VUndef | VNaN => NumNaN
  | VNull => Num 0
  | VBool b => Num (if b then 1 else 0)
  | VNum n => round64 (inject_Z n)
  | VStr s => StringToNumber s
  | VArr _ | VObj _ | VErr _ _ => StringToNumber (ToString v)
  end.

(** The global [isFinite(v)]: [v] converts to a number that is neither
    [NaN] nor an infinity. *)
Definition isFinite (v : jsval) : bool :=
  match ToNumber v with
  | Num _ => true
  | NumNaN | NumInf _ => false
  end.

(** [a == b] on numbers: [NaN] equals nothing. *)
Definition num_eqb (a b : jsnum) : bool :=
  match a, b with
  | Num x, Num y => Qeq_bool x y
  | NumInf s, NumInf t => Bool.eqb s t
  | _, _ => false
  end.

(** [a < b] on numbers: false as soon as one side is [NaN]. *)
Definition num_lt (a b : jsnum) : bool :=
  match a, b with
  | Num x, Num y => negb (Qle_bool y x)
  | NumInf true, Num _ | NumInf true, NumInf false | Num _, NumInf false => true
  | _, _ => false
  end.

(** [v < n] where the right operand is a number, as in
    [count < Number(_id)]: the left operand is converted to a number. *)
Definition lt_number (v : jsval) (n : jsnum) : bool := num_lt (ToNumber v) n.

(** [v == n] for a number literal [n]: [null] and [undefined] equal no
    number, everything else is compared after conversion to a number. *)
Definition loose_eq_num (v : jsval) (n : Z) : bool :=
  match v with
  | VUndef | VNull => false
  | _ => num_eqb (ToNumber v) (ToNumber (VNum n))
  end.

(** [v == s] for a string literal [s]: a number or boolean is compared
    with the number the string reads as, anything else through its
    string. *)
Definition loose_eq_str (v : jsval) (s : string) : bool :=
  match v with
  | VUndef | VNull => false
  | VNum _ | VNaN | VBool _ => num_eqb (ToNumber v) (StringToNumber s)
  | VStr _ | VArr _ | VObj _ | VErr _ _ => String.eqb (ToString v) s
  end.

(** [...v] in an argument list: arrays spread to their elements and strings
    to their characters; other values are not iterable. *)
Fixpoint chars (s : string) : list jsval :=
  match s with
  | EmptyString => []
  | String a r => VStr (String a EmptyString) :: chars r
  end.

Definition spread (v : jsval) : completion (list jsval) :=
  match v with
  | VArr l => Normal l
  | VStr s => Normal (chars s)
  | _ => Throw (TypeError "value is not iterable")
  end.

(** [s.toLowerCase()] on the ASCII letters. *)
Definition lower_ascii (a : ascii) : ascii :=
  let n := nat_of_ascii a in
  if ((65 <=? n) && (n <=? 90))%nat then ascii_of_nat (n + 32) else a.

Fixpoint toLowerCase (s : string) : string :=
  match s with
  | EmptyString => EmptyString
  | String a r => String (lower_ascii a) (toLowerCase r)
  end.

End JS.
Export JS.

(* ===================================================================== *)
(** ** Promises, effects and the method monad                            *)
(* ===================================================================== *)

(** The state of a promise once the call that produced it has run to the
    end: fulfilled with a value, rejected with a reason, or never
    settled. *)
Inductive promise :=
| Fulfilled (v : jsval)
| Rejected (e : jsval)
| Pending.

(** What a method does to the outside world, in program order. *)
Inductive event :=
| GetAddress                                   (* internal.getAddress() *)
| EncodeSpells (d : jsval)                     (* internal.encodeSpells(_d) *)
| GetTxObj (d : jsval)                         (* internal.getTxObj(_d) *)
| NewContract (abi addr : jsval)               (* new web3.eth.Contract(abi, addr) *)
| ContractMethod (name : string) (args : list jsval)  (* _c.methods[name](...args) *)
| SendTxn (tx : jsval)                         (* txnUtil.send(txObj) *)
| EstimateGas (d : jsval)                      (* castUtil.estimateGas(_d) *)
| EstimateGnosisSafeGas (d : jsval)            (* gnosisSafe.estimateGnosisSafeGas(_d) *)
| CreateTransaction (d : jsval)                (* gnosisSafe.createTransaction({..}) *)
| Count                                        (* account.count() *)
| ConsoleLog (msg : string)
| ConsoleError (msg : string)
| UnhandledRejection (e : jsval).              (* a rejected promise nobody listens to *)

Module Effects.

(** How the body of a function ends: with a value, with a throw, or parked
    for ever on an [await] of a promise that never settles. *)
Inductive outcome (A : Type) :=
| Ok (a : A)
| Thrown (e : jsval)
| Blocked.
Arguments Ok {A} a.
Arguments Thrown {A} e.
Arguments Blocked {A}.

(** [self] is the object the method runs on, [trace] the events so far
    (oldest first) and [cell] the promise currently under construction by
    [new Promise]: [Pending] until [resolve] or [reject] is first called. *)
Record state (S : Type) := State { self : S; trace : list event; cell : promise }.
Arguments State {S} _ _ _.
Arguments self {S} _.
Arguments trace {S} _.
Arguments cell {S} _.

Definition M (S A : Type) : Type := state S → state S * outcome A.

Definition ret {S A} (a : A) : M S A := λ st, (st, Ok a).

Definition bind {S A B} (m : M S A) (k : A → M S B) : M S B := λ st,
  match m st with
  | (st', Ok a) => k a st'
  | (st', Thrown e) => (st', Thrown e)
  | (st', Blocked) => (st', Blocked)
  end.

Definition throw {S A} (e : jsval) : M S A := λ st, (st, Thrown e).

Definition emit {S} (ev : event) : M S unit := λ st,
  (State (self st) (trace st ++ [ev]) (cell st), Ok tt).

Definition this {S} : M S S := λ st, (st, Ok (self st)).

Definition set_this {S} (s : S) : M S unit := λ st,
  (State s (trace st) (cell st), Ok tt).

Definition lift {S A} (c : completion A) : M S A :=
  match c with
  | Normal a => ret a
  | Throw e => throw e
  end.

(** [await p] *)
Definition await {S} (p : promise) : M S jsval :=
  match p with
  | Fulfilled v => ret v
  | Rejected e => throw e
  | Pending => λ st, (st, Blocked)
  end.

(** [resolve(v)] and [reject(e)] of the enclosing [new Promise]: only the
    first settlement counts. *)
Definition settle {S} (p : promise) : M S unit := λ st,
  match cell st with
  | Pending => (State (self st) (trace st) p, Ok tt)
  | _ => (st, Ok tt)
  end.

Definition resolve {S} (v : jsval) : M S jsval :=
  bind (settle (Fulfilled v)) (λ _, ret VUndef).
Definition reject {S} (e : jsval) : M S jsval :=
  bind (settle (Rejected e)) (λ _, ret VUndef).

(** The promise a handler's run turns into. *)
Definition as_promise {S} (m : M S jsval) : M S promise := λ st,
  match m st with
  | (st', Ok v) => (st', Ok (Fulfilled v))
  | (st', Thrown e) => (st', Ok (Rejected e))
  | (st', Blocked) => (st', Ok Pending)
  end.

(** [p.then(f)] and [p.catch(g)] *)
Definition then_ {S} (p : promise) (f : jsval → M S jsval) : M S promise :=
  match p with
  | Fulfilled v => as_promise (f v)
  | Rejected e => ret (Rejected e)
  | Pending => ret Pending
  end.

Definition catch_ {S} (p : promise) (g : jsval → M S jsval) : M S promise :=
  match p with
  | Rejected e => as_promise (g e)
  | Fulfilled v => ret (Fulfilled v)
  | Pending => ret Pending
  end.

(** A promise that is let go: when it is rejected, nobody is told. *)
Definition drop {S} (p : promise) : M S unit :=
  match p with
  | Rejected e => emit (UnhandledRejection e)
  | _ => ret tt
  end.

(** [async function] whose body returns the promise [p] (a plain value [v]
    is [Fulfilled v]): a throw in the body rejects the result. *)
Definition async {S} (body : M S promise) : M S promise := λ st,
  match body st with
  | (st', Ok p) => (st', Ok p)
  | (st', Thrown e) => (st', Ok (Rejected e))
  | (st', Blocked) => (st', Ok Pending)
  end.

(** [new Promise(executor)]. The constructor ignores what the executor
    returns, so a rejected promise returned from it goes unhandled. A throw
    in a plain executor rejects the promise unless it is settled already. An
    [async] executor is a function returning its own promise: a throw in it
    rejects that promise, settles nothing and surfaces as an unhandled
    rejection. *)
Definition new_Promise {S} (is_async : bool) (executor : M S promise)
  : M S promise := λ st,
  let outer := cell st in
  let '(st1, o) := executor (State (self st) (trace st) Pending) in
  let st2 :=
    match o with
    | Ok r => fst (drop r st1)
    | Thrown e =>
        if is_async then fst (emit (UnhandledRejection e) st1)
        else fst (settle (Rejected e) st1)
    | Blocked => st1
    end in
  (State (self st2) (trace st2) outer, Ok (cell st2)).

(** Running a method on an object from a clean slate. *)
Definition run {S A} (m : M S A) (s : S) : state S * outcome A :=
  m (State s [] Pending).

Definition result {S A} (r : state S * outcome A) : outcome A := snd r.
Definition events {S A} (r : state S * outcome A) : list event := trace (fst r).
Definition final {S A} (r : state S * outcome A) : S := self (fst r).

End Effects.
Export Effects.

Declare Scope js_scope.
Delimit Scope js_scope with js.
Notation "x <- c ;; k" := (bind c (λ x, k))
  (at level 100, c at next level, right associativity) : js_scope.
Notation "c ;; k" := (bind c (λ _, k))
  (at level 100, right associativity) : js_scope.
#[local] Open Scope js_scope.

(* ===================================================================== *)
(** ** The facade's state and its collaborators                          *)
(* ===================================================================== *)

(** The fields of a [DSA] object that its methods read or write.
    [instance] is the JavaScript object held in [this.instance].
    [gnosisSafe] tells whether [this.gnosisSafe] is defined and [node] is
    the value of [this.node]: the constructor assigns neither. *)
Record DSA := {
  mode : string;
  privateKey : jsval;
  instance : gmap string jsval;
  origin : jsval;
  gnosisSafe : bool;
  node : jsval;
}.

Definition with_instance (d : DSA) (i : gmap string jsval) : DSA :=
  {| mode := mode d; privateKey := privateKey d; instance := i;
     origin := origin d; gnosisSafe := gnosisSafe d; node := node d |}.

Definition with_origin (d : DSA) (o : jsval) : DSA :=
  {| mode := mode d; privateKey := privateKey d; instance := instance d;
     origin := o; gnosisSafe := gnosisSafe d; node := node d |}.

(** What web3 hands back for [_c.methods.f(...)]: an object whose
    [encodeABI()] returns the call data or throws, and whose [call()]
    returns a promise. *)
Record method_object := {
  encodeABI : completion jsval;
  call : promise;
}.

(** A web3 contract object: [methods name] is [None] when
    [_c.methods[name]] is undefined. *)
Record contract := {
  methods : string → option (list jsval → completion method_object);
}.

(** Everything [index.js] imports or is handed. The helpers built with
    [new Internal(this)], [new Cast(this)], [new Txn(this)] and
    [new Account(this)] keep a reference to the facade, so their answers may
    depend on its state. *)
Record Env := {
  (* constant/addresses.js and constant/abis.js *)
  address_genesis : jsval;
  address_core_index : jsval;
  address_read : gmap string jsval;
  ABI_core_index : jsval;
  ABI_core_account : jsval;
  ABI_read : gmap string jsval;
  (* web3.eth.Contract *)
  Contract : jsval → jsval → completion contract;
  (* internal.js *)
  internal_getAddress : DSA → promise;
  internal_getTxObj : DSA → jsval → promise;
  internal_encodeSpells : DSA → jsval → completion jsval;
  (* utils/cast.js, utils/txn.js, resolvers/account.js *)
  castUtil_estimateGas : DSA → jsval → promise;
  txnUtil_send : DSA → jsval → promise;
  account_count : DSA → promise;
  (* the object behind this.gnosisSafe, when there is one *)
  gnosisSafe_estimateGnosisSafeGas : jsval → promise;
  gnosisSafe_createTransaction : jsval → promise;
}.

(** [if (!_d.k) _d.k = v] *)
Definition default_field (k : string) (v : jsval) (d : gmap string jsval)
  : gmap string jsval :=
  if truthy (field d k) then d else <[k := v]> d.

(** The constructor's configuration: [mode] and [privateKey] are strings
    when given. The web3 handle it also carries is represented by the
    [Contract] field of the environment. *)
Record Config := {
  config_mode : option string;
  config_privateKey : option string;
}.

Definition opt_str (o : option string) : jsval :=
  match o with Some s => VStr s | None => VUndef end.

Section Calls.

Variable env : Env.

(** *** Calls out of the facade, each leaving its event *)

Definition getAddress : M DSA jsval :=
  emit GetAddress ;; d <- this ;; await (internal_getAddress env d).

Definition getTxObj (_d : jsval) : M DSA jsval :=
  emit (GetTxObj _d) ;; d <- this ;; await (internal_getTxObj env d _d).

Definition encodeSpells (_d : jsval) : M DSA jsval :=
  emit (EncodeSpells _d) ;; d <- this ;; lift (internal_encodeSpells env d _d).

Definition sendTxn (txObj : jsval) : M DSA promise :=
  emit (SendTxn txObj) ;; d <- this ;; ret (txnUtil_send env d txObj).

Definition new_Contract {S} (abi addr : jsval) : M S contract :=
  emit (NewContract abi addr) ;; lift (Contract env abi addr).

(** [_c.methods[name](...args)]: calling an undefined property throws. *)
Definition contract_method {S} (_c : contract) (name : string)
    (args : list jsval) : M S method_object :=
  emit (ContractMethod name args) ;;
  match methods _c name with
  | Some f => lift (f args)
  | None => throw (TypeError ("_c.methods." +:+ name +:+ " is not a function"))
  end.

(** [_c.methods.cast(..._espell, _d.origin).encodeABI()] on a contract for
    the selected instance's address (lines 226-231, 285-290, 571-576). *)
Definition cast_call (_espell : jsval) (_d : gmap string jsval) : M DSA jsval :=
  d <- this ;;
  _c <- new_Contract (ABI_core_account env) (field (instance d) "address") ;;
  targets <- lift (spread _espell) ;;
  m <- contract_method _c "cast" (targets ++ [field _d "origin"]) ;;
  lift (encodeABI m).

(** *** [read] (lines 326-341, and again 648-663) *)
Definition read {S} (_s : gmap string jsval) : M S promise :=
  async (
    let protocol := ToString (field _s "protocol") in
    _c <- new_Contract (field (ABI_read env) protocol)
                       (field (address_read env) protocol) ;;
    new_Promise false (
      args <- lift (spread (field _s "args")) ;;
      m <- contract_method _c (ToString (field _s "method")) args ;;
      p <- then_ (call m) (λ res, resolve res) ;;
      catch_ p (λ err, reject err))).

End Calls.

(* ===================================================================== *)
(** ** [Spell()] (lines 299-321)                                         *)
(* ===================================================================== *)

Module Spell.

(** The object [Spell()] returns: its [data] array. *)
Record t := { data : list jsval }.

Definition constructor : t := {| data := [] |}.

Definition push (_s : jsval) (sp : t) : t := {| data := data sp ++ [_s] |}.

(** [add(_s)]: each guard is [if (!_s.f) return console.error(..)], and
    [console.error] returns [undefined]. *)
Definition add (_s : jsval) : M t jsval :=
  connector <- lift (get _s "connector") ;;
  if negb (truthy connector)
  then emit (ConsoleError "connector not defined.") ;; ret VUndef
  else
    method <- lift (get _s "method") ;;
    if negb (truthy method)
    then emit (ConsoleError "method not defined.") ;; ret VUndef
    else
      args <- lift (get _s "args") ;;
      if negb (truthy args)
      then emit (ConsoleError "args not defined.") ;; ret VUndef
      else
        sp <- this ;; set_this (push _s sp) ;; ret VUndef.

(** The spell after a series of [add] calls, whatever each of them did. *)
Definition add_all (ops : list jsval) (sp : t) : t :=
  fold_left (λ acc _s, final (add _s (State acc [] Pending))) ops sp.

(** An operation carries a field when reading it gives something other
    than [undefined]. *)
Definition has_field (_s : jsval) (k : string) : bool :=
  match get _s k with
  | Normal VUndef | Throw _ => false
  | Normal _ => true
  end.

Definition complete (_s : jsval) : bool :=
  has_field _s "connector" && has_field _s "method" && has_field _s "args".

End Spell.

(* ===================================================================== *)
(** ** First revision of [index.js] (lines 1-342)                        *)
(* ===================================================================== *)

Module Rev1.
Section Facade.

Variable env : Env.

(** *** The constructor (lines 19-58)

    In [node] mode without a private key the constructor logs and returns
    before any other field is assigned; the object it leaves behind is not
    a usable facade and is reported as [inr] with the message logged. *)
Definition constructor (config : option Config) : DSA + string :=
  let config := default {| config_mode := None; config_privateKey := None |} config in
  let mode :=
    if truthy (opt_str (config_mode config))
    then toLowerCase (default "" (config_mode config))
    else "browser" in
  let initialised key :=
    {| mode := mode; privateKey := key;
       instance := {[ "id" := VNum 0;
                      "address" := address_genesis env;
                      "version" := VNum 1 ]};
       origin := address_genesis env;
       gnosisSafe := false; node := VUndef |} in
  if String.eqb mode "node" then
    if negb (truthy (opt_str (config_privateKey config)))
    then inr "private-key-not-defined"
    else
      let key := default "" (config_privateKey config) in
      inl (initialised
             (VStr (if negb (String.eqb (String.substring 0 2 key) "0x")
                    then "0x" +:+ key else key)))
  else inl (initialised VUndef).

(** [this.instance.config.k] *)
Definition instance_config (k : string) : M DSA jsval :=
  d <- this ;; lift (get (field (instance d) "config") k).

(** [this.gnosisSafe.f]: reading a method off the undefined field throws. *)
Definition this_gnosisSafe : M DSA unit :=
  d <- this ;;
  if gnosisSafe d then ret tt
  else throw (TypeError "Cannot read properties of undefined").

(** *** [estimateCastGas] (lines 67-83) *)
Definition estimateCastGas (_d : gmap string jsval) : M DSA promise :=
  async (
    type <- instance_config "type" ;;
    new_Promise true (
      if loose_eq_num type 0 then
        emit (EstimateGas (VObj _d)) ;;
        d <- this ;;
        p <- then_ (castUtil_estimateGas env d (VObj _d)) (λ gas, resolve gas) ;;
        q <- catch_ p (λ err, reject err) ;;
        await q ;;
        ret (Fulfilled VUndef)
      else if loose_eq_num type 1 then
        safe <- instance_config "gnosisSafe" ;;
        let _d := <["gnosisSafe" := safe]> _d in
        this_gnosisSafe ;;
        emit (EstimateGnosisSafeGas (VObj _d)) ;;
        p <- then_ (gnosisSafe_estimateGnosisSafeGas env (VObj _d))
                   (λ gas, resolve gas) ;;
        q <- catch_ p (λ err, reject err) ;;
        await q ;;
        ret (Fulfilled VUndef)
      else ret (Fulfilled VUndef))).

(** *** [setInstance] (lines 88-123); the second argument is not used. *)

Definition dsaId (_o : jsval) : M DSA jsval :=
  _id <- (if String.eqb (typeof _o) "object" then
            id <- lift (get _o "id") ;;
            if negb (truthy id) then throw (Error "`dsaId` is not defined.")
            else ret id
          else ret _o) ;;
  if negb (isFinite (VStr (ToString _id)))
  then throw (Error "Invaild `dsaId`.")
  else ret _id.

Definition set_instance_field (k : string) (v : jsval) : M DSA unit :=
  d <- this ;; set_this (with_instance d (<[k := v]> (instance d))).

Definition does_not_exist : jsval :=
  VStr "dsaId does not exist. Run `dsa.build()` to create new DSA.".

(** The [_obj] that [setInstance] hands to [read]. *)
Definition details_request (_id : jsval) : gmap string jsval :=
  {[ "protocol" := VStr "core";
     "method" := VStr "getAccountIdDetails";
     "args" := VArr [_id] ]}.

Definition setInstance (_o _c : jsval) : M DSA promise :=
  async (
    _id <- dsaId _o ;;
    let _obj := details_request _id in
    new_Promise false (
      p <- read env _obj ;;
      q <- then_ p (λ res,
             r0 <- lift (index res 0) ;; set_instance_field "id" r0 ;;
             r1 <- lift (index res 1) ;; set_instance_field "address" r1 ;;
             r2 <- lift (index res 2) ;; set_instance_field "version" r2 ;;
             d <- this ;; resolve (VObj (instance d))) ;;
      catch_ q (λ err,
        count <- (emit Count ;; d <- this ;; await (account_count env d)) ;;
        if lt_number count (ToNumber _id)
        then reject does_not_exist
        else reject err))).

(** [setAccount] (lines 130-132) *)
Definition setAccount (_o _c : jsval) : M DSA promise :=
  async (setInstance _o _c).

(** [setOrigin] (lines 138-140) *)
Definition setOrigin (_origin : jsval) : M DSA jsval :=
  d <- this ;; set_this (with_origin d _origin) ;; ret VUndef.

(** *** [build] (lines 151-175) *)

(** The method object of [_c.methods.build(_d.authority, _d.version,
    _d.origin)] on a fresh contract for the index address. *)
Definition build_call (_d : gmap string jsval) : M DSA jsval :=
  _c <- new_Contract env (ABI_core_index env) (address_core_index env) ;;
  m <- contract_method _c "build"
         [field _d "authority"; field _d "version"; field _d "origin"] ;;
  lift (encodeABI m).

(** Lines 153-158: the parameter object once the unset fields are filled
    in and the target address is written. *)
Definition build_fields (_addr : jsval) (d : DSA)
    (_d : option (gmap string jsval)) : gmap string jsval :=
  let _d := default ∅ _d in
  let _d := default_field "authority" _addr _d in
  let _d := default_field "version" (VNum 1) _d in
  let _d := default_field "origin" (origin d) _d in
  let _d := default_field "from" _addr _d in
  <["to" := address_core_index env]> _d.

Definition build (_d : option (gmap string jsval)) : M DSA promise :=
  async (
    _addr <- getAddress env ;;
    d <- this ;;
    let _d := build_fields _addr d _d in
    callData <- build_call _d ;;
    let _d := <["callData" := callData]> _d in
    new_Promise true (
      txObj <- getTxObj env (VObj _d) ;;
      p <- sendTxn env txObj ;;
      q <- then_ p (λ tx, resolve tx) ;;
      catch_ q (λ err, reject err))).

(** *** [buildTxObj] (lines 185-203)

    The body reads [_addr], which no enclosing scope declares: evaluating
    the identifier throws a [ReferenceError]. *)
Definition unbound {A} (name : string) : M DSA A :=
  throw (ReferenceError (name +:+ " is not defined")).

Definition buildTxObj (_d : option (gmap string jsval)) : M DSA promise :=
  async (
    let _d := default ∅ _d in
    _d <- (if negb (truthy (field _d "authority"))
           then _addr <- unbound "_addr" ;; ret (<["authority" := _addr]> _d)
           else ret _d) ;;
    d <- this ;;
    let _d := default_field "version" (VNum 1) _d in
    let _d := default_field "origin" (origin d) _d in
    let _d := <["to" := address_core_index env]> _d in
    callData <- build_call _d ;;
    let _d := <["callData" := callData]> _d in
    txObj <- getTxObj env (VObj _d) ;;
    ret (Fulfilled txObj)).

(** *** [cast] (lines 218-265) *)

Definition not_on_node : jsval :=
  VStr "Gnosis-Safe integration is not available on `node` mode".

Definition safeAddress_missing : jsval :=
  Error "`safeAddress` is not defined. Run `await dsa.setInstance(dsaId, { gnosisSafe: safeAddr })`".

Definition type_not_valid : jsval := Error "`type` is not vaild".

Definition cast (_d : gmap string jsval) : M DSA promise :=
  async (
    _addr <- getAddress env ;;
    _espell <- encodeSpells env (VObj _d) ;;
    d <- this ;;
    let _d := default_field "to" (field (instance d) "address") _d in
    let _d := default_field "from" _addr _d in
    let _d := default_field "origin" (origin d) _d in
    type <- instance_config "type" ;;
    let _d := <["type" := type]> _d in
    callData <- cast_call env _espell _d ;;
    let _d := <["callData" := callData]> _d in
    new_Promise true (
      txObj <- getTxObj env (VObj _d) ;;
      if loose_eq_num (field _d "type") 0 then
        emit (ConsoleLog "Casting spells to DSA.") ;;
        p <- sendTxn env txObj ;;
        q <- then_ p (λ tx, resolve tx) ;;
        catch_ q (λ err, reject err)
      else if loose_eq_num (field _d "type") 1 then
        (if loose_eq_str (node d) "node" then reject not_on_node else ret VUndef) ;;
        emit (ConsoleLog "Casting spells to Gnosis Safe.") ;;
        safeAddr <- instance_config "gnosisSafe" ;;
        if negb (truthy safeAddr) then throw safeAddress_missing
        else
          this_gnosisSafe ;;
          from <- lift (get txObj "from") ;;
          to <- lift (get txObj "to") ;;
          value <- lift (get txObj "value") ;;
          data <- lift (get txObj "data") ;;
          let tx : gmap string jsval :=
            {[ "safeAddress" := safeAddr; "from" := from; "to" := to;
               "valueInWei" := value; "txData" := data ]} in
          emit (CreateTransaction (VObj tx)) ;;
          p <- then_ (gnosisSafe_createTransaction env (VObj tx))
                     (λ tx, resolve tx) ;;
          q <- catch_ p (λ err, reject err) ;;
          drop q ;;
          ret (Fulfilled VUndef)
      else throw type_not_valid)).

(** *** [castTxObj] (lines 279-294) *)
Definition castTxObj (_d : gmap string jsval) : M DSA promise :=
  async (
    _espell <- encodeSpells env (VObj _d) ;;
    d <- this ;;
    let _d := default_field "to" (field (instance d) "address") _d in
    let _d := default_field "origin" (origin d) _d in
    type <- instance_config "type" ;;
    let _d := <["type" := type]> _d in
    callData <- cast_call env _espell _d ;;
    let _d := <["callData" := callData]> _d in
    txObj <- getTxObj env (VObj _d) ;;
    ret (Fulfilled txObj)).

End Facade.
End Rev1.

(* ===================================================================== *)
(** ** Second revision of [index.js] (lines 343-664)                     *)
(* ===================================================================== *)

Module Rev2.
Section Facade.

Variable env : Env.

(** *** [cast] (lines 564-587): no routing type is read or tested. *)
Definition cast (_d : gmap string jsval) : M DSA promise :=
  async (
    _addr <- getAddress env ;;
    _espell <- encodeSpells env (VObj _d) ;;
    d <- this ;;
    let _d := default_field "to" (field (instance d) "address") _d in
    let _d := default_field "from" _addr _d in
    let _d := default_field "origin" (origin d) _d in
    callData <- cast_call env _espell _d ;;
    let _d := <["callData" := callData]> _d in
    new_Promise true (
      txObj <- getTxObj env (VObj _d) ;;
      emit (ConsoleLog "Casting spells to DSA.") ;;
      p <- sendTxn env txObj ;;
      q <- then_ p (λ tx, resolve tx) ;;
      catch_ q (λ err, reject err))).

(** *** The constructor (lines 369-415): as in the first revision, with
    another message; the helpers it adds ([math], [tokens], [erc20]) are
    not fields the methods below read. *)
Definition constructor (config : option Config) : DSA + string :=
  let config := default {| config_mode := None; config_privateKey := None |} config in
  let mode :=
    if truthy (opt_str (config_mode config))
    then toLowerCase (default "" (config_mode config))
    else "browser" in
  let initialised key :=
    {| mode := mode; privateKey := key;
       instance := {[ "id" := VNum 0;
                      "address" := address_genesis env;
                      "version" := VNum 1 ]};
       origin := address_genesis env;
       gnosisSafe := false; node := VUndef |} in
  if String.eqb mode "node" then
    if negb (truthy (opt_str (config_privateKey config)))
    then inr "Private key is not defined."
    else
      let key := default "" (config_privateKey config) in
      inl (initialised
             (VStr (if negb (String.eqb (String.substring 0 2 key) "0x")
                    then "0x" +:+ key else key)))
  else inl (initialised VUndef).

(** *** [estimateCastGas] (lines 424-431) *)
Definition estimateCastGas (_d : gmap string jsval) : M DSA promise :=
  async (
    new_Promise true (
      emit (EstimateGas (VObj _d)) ;;
      d <- this ;;
      p <- then_ (castUtil_estimateGas env d (VObj _d)) (λ gas, resolve gas) ;;
      q <- catch_ p (λ err, reject err) ;;
      await q ;;
      ret (Fulfilled VUndef))).

(** *** [setInstance] (lines 436-469)

    This revision dropped the [let _id;] of line 90. A class body is strict
    code, so the store [_id = ...] into an identifier no scope declares
    throws a [ReferenceError], once its right-hand side is evaluated. *)
Definition assign_undeclared (name : string) (v : jsval) : M DSA jsval :=
  throw (ReferenceError (name +:+ " is not defined")).

Definition setInstance (_o _c : jsval) : M DSA promise :=
  async (
    _id <- (if String.eqb (typeof _o) "object" then
              id <- lift (get _o "id") ;;
              if negb (truthy id) then throw (Error "`dsaId` is not defined.")
              else assign_undeclared "_id" id
            else assign_undeclared "_id" _o) ;;
    if negb (isFinite (VStr (ToString _id)))
    then throw (Error "Invaild `dsaId`.")
    else
      let _obj := Rev1.details_request _id in
      new_Promise false (
        p <- read env _obj ;;
        q <- then_ p (λ res,
               r0 <- lift (index res 0) ;; Rev1.set_instance_field "id" r0 ;;
               r1 <- lift (index res 1) ;; Rev1.set_instance_field "address" r1 ;;
               r2 <- lift (index res 2) ;; Rev1.set_instance_field "version" r2 ;;
               d <- this ;; resolve (VObj (instance d))) ;;
        catch_ q (λ err,
          count <- (emit Count ;; d <- this ;; await (account_count env d)) ;;
          if lt_number count (ToNumber _id)
          then reject Rev1.does_not_exist
          else reject err))).

(** [setAccount] (lines 476-478) *)
Definition setAccount (_o _c : jsval) : M DSA promise :=
  async (setInstance _o _c).

(** [setOrigin] (lines 484-486), [build] (lines 497-521), [buildTxObj]
    (lines 531-549) and [castTxObj] (lines 601-616) carry the text of the
    first revision. *)
Definition setOrigin : jsval → M DSA jsval := Rev1.setOrigin.
Definition build : option (gmap string jsval) → M DSA promise := Rev1.build env.
Definition buildTxObj : option (gmap string jsval) → M DSA promise :=
  Rev1.buildTxObj env.
Definition castTxObj : gmap string jsval → M DSA promise := Rev1.castTxObj env.

End Facade.
End Rev2.

(* ===================================================================== *)
(** ** [internal.js]: the spell encoder                                  *)
(* ===================================================================== *)

Module Internal.
Section Encoder.

(** The encoder of one operation's call data (the ABI encoding of its
    method and arguments, which the spec leaves to the external library). *)
Variable encodeMethod : jsval → jsval.

(** Modelled from the spec: [internal.js] is not among the sources; the
    connector name of an operation is its [connector] field (section 3:
    each operation has "a named connector (target integration), a method
    name, and a positional argument list"). *)
Definition connector (_s : jsval) : jsval :=
  match get _s "connector" with
  | Normal c => c
  | Throw _ => VUndef
  end.

(** Modelled from the spec: [internal.js] is not among the sources, so
    [encodeSpells] follows section 4.2: it "transforms the ordered
    operation list into the parallel arrays (connector names, encoded
    per-operation call data) that the on-chain batch-execution entry point
    expects, preserving order". The two arrays are filled in one pass over
    the operations, one push to each array per operation. *)
Definition encodeSpells (ops : list jsval) : list jsval * list jsval :=
  fold_left
    (λ arrays _s,
       (arrays.1 ++ [connector _s], arrays.2 ++ [encodeMethod _s]))
    ops ([], []).

End Encoder.
End Internal.

(* ===================================================================== *)
(** ** Vocabulary of the statements                                      *)
(* ===================================================================== *)

(** The routing type of the selected instance: [this.instance.config.type]. *)
Definition routing_type (d : DSA) : completion jsval :=
  get (field (instance d) "config") "type".

(** What reading [this.instance.config.type] throws when the instance has
    no [config]. *)
Definition undefined_config : jsval :=
  TypeError "Cannot read properties of undefined".

(** Handing a transaction over for sending, directly or through the
    multi-signature wallet. *)
Definition is_submission (ev : event) : bool :=
  match ev with
  | SendTxn _ | CreateTransaction _ => true
  | _ => false
  end.

(** The steps of [cast] that come before its call data is encoded. *)
Definition is_preparation (ev : event) : bool :=
  match ev with
  | GetAddress | EncodeSpells _ => true
  | _ => false
  end.


(** What a [read] request does, whatever object it is called from: the
    events it leaves and the promise it returns. *)
Definition read_outcome (env : Env) (_s : gmap string jsval)
  : list event * promise :=
  let r := run (read env _s) () in
  (events r, match result r with Ok p => p | _ => Pending end).

(** The on-chain lookup of [setInstance] for an account id. *)
Definition lookup (env : Env) (_id : jsval) : promise :=
  (read_outcome env (Rev1.details_request _id)).2.

(** The instance after lines 108-110. *)
Definition populated (d : DSA) (r0 r1 r2 : jsval) : gmap string jsval :=
  <["version" := r2]> (<["address" := r1]> (<["id" := r0]> (instance d))).

(** A field of the parameter object of [build] is unset: there is no
    object, or [!_d.k] holds. *)
Definition unset (_d : option (gmap string jsval)) (k : string) : Prop :=
  truthy (field (default ∅ _d) k) = false.

(** web3 given no JSON interface: the constructor throws, or the contract
    it returns has no methods. *)
Definition no_interface (c : completion contract) : Prop :=
  match c with
  | Throw _ => True
  | Normal _c => ∀ name, methods _c name = None
  end.

(** [add] takes an operation in: its three fields can be read and are
    truthy. *)
Definition accepted (_s : jsval) : bool :=
  match get _s "connector", get _s "method", get _s "args" with
  | Normal c, Normal m, Normal a => truthy c && truthy m && truthy a
  | _, _, _ => false
  end.

(** [f] is the first of [connector], [method], [args], in the order [add]
    tests them, that is falsy in the operation [o]; a missing field reads
    [undefined], which is falsy. *)
Definition first_falsy (o : gmap string jsval) (f : string) : Prop :=
  ∃ before after,
    ["connector"; "method"; "args"] = before ++ f :: after ∧
    Forall (λ g, truthy (field o g) = true) before ∧
    truthy (field o f) = false.

(** The submissions of a trace, in order. *)
Definition submissions (evs : list event) : list event :=
  List.filter is_submission evs.

(** The mode a configuration asks for. *)
Definition requested_mode (config : option Config) : option string :=
  config ≫= config_mode.

(* ===================================================================== *)
(** ** A small concrete world, for running the methods                   *)
(* ===================================================================== *)

Module Demo.

Definition genesis : jsval := VStr "0x0000000000000000000000000000000000000000".
Definition index_address : jsval := VStr "0x2971adfa57b20e5a416ae5a708a8655a9c74f723".
Definition resolver_address : jsval := VStr "0x621ad080ad3b839e7b19e040c77f05213ab71524".
Definition signer : jsval := VStr "0x00000000000000000000000000000000000000aa".
Definition receipt : jsval := VStr "0xfeed".

(** Ten accounts exist on this chain; account [n] lives at address [n]. *)
Definition accounts : Z := 10.

Definition details (n : Z) : jsval :=
  VObj {[ "0" := VNum n; "1" := VStr (pretty n); "2" := VNum 1 ]}.

Definition reverted : jsval := Error "execution reverted".

Definition lookup (args : list jsval) : promise :=
  match args with
  | [_id] =>
      match ToNumber _id with
      | Num q => let n := Qfloor q in
                 if Qeq_bool q (inject_Z n) && (1 <=? n) && (n <=? accounts)
                 then Fulfilled (details n)
                 else Rejected reverted
      | _ => Rejected reverted
      end
  | _ => Rejected reverted
  end.

(** Every method exists; its call data is the method name followed by its
    arguments, and its call answers the account lookup. *)
Definition a_contract : contract :=
  {| methods := λ name, Some (λ args,
       Normal {| encodeABI := Normal (VArr (VStr name :: args));
                 call := lookup args |}) |}.

(** web3 1.x refuses to build a contract without a JSON interface. *)
Definition missing_interface : jsval :=
  Error "You must provide the json interface of the contract when instantiating a contract object.".

Definition web3_Contract (abi addr : jsval) : completion contract :=
  match abi with
  | VArr _ => Normal a_contract
  | _ => Throw missing_interface
  end.

(** The operations of a cast request: [_d.data] of a spell instance, or
    [_d.spells.data]. *)
Definition operations (_d : jsval) : list jsval :=
  match _d with
  | VObj o =>
      match field o "data", field o "spells" with
      | VArr ops, _ => ops
      | _, VObj sp => match field sp "data" with VArr ops => ops | _ => [] end
      | _, _ => []
      end
  | _ => []
  end.

(** One operation's call data here: its method name and its arguments. *)
Definition encodeMethod (_s : jsval) : jsval :=
  match _s with
  | VObj o => VArr [field o "method"; field o "args"]
  | _ => VUndef
  end.

(** The array of the two parallel arrays, as [cast] spreads it. *)
Definition encoded (ops : list jsval) : jsval :=
  let arrays := Internal.encodeSpells encodeMethod ops in
  VArr [VArr arrays.1; VArr arrays.2].

Definition env : Env :=
  {| address_genesis := genesis;
     address_core_index := index_address;
     address_read := {[ "core" := resolver_address ]};
     ABI_core_index := VArr [];
     ABI_core_account := VArr [];
     ABI_read := {[ "core" := VArr [] ]};
     Contract := web3_Contract;
     internal_getAddress := λ _, Fulfilled signer;
     internal_getTxObj := λ _ _d,
       match _d with
       | VObj o => Fulfilled (VObj {[ "from" := field o "from";
                                      "to" := field o "to";
                                      "data" := field o "callData";
                                      "value" := VNum 0 ]})
       | _ => Rejected (Error "invalid descriptor")
       end;
     internal_encodeSpells := λ _ _d, Normal (encoded (operations _d));
     castUtil_estimateGas := λ _ _, Fulfilled (VNum 21000);
     txnUtil_send := λ _ _, Fulfilled receipt;
     account_count := λ _, Fulfilled (VNum accounts);
     gnosisSafe_estimateGnosisSafeGas := λ _, Pending;
     gnosisSafe_createTransaction := λ _, Pending |}.

(** The facade the constructor builds when called without configuration. *)
Definition dsa : DSA :=
  match Rev1.constructor env None with
  | inl d => d
  | inr _ => {| mode := ""; privateKey := VUndef; instance := ∅;
                origin := VUndef; gnosisSafe := false; node := VUndef |}
  end.

(** The same facade with a routing configuration installed by hand. *)
Definition routed (type : jsval) : DSA :=
  with_instance dsa (<["config" := VObj {[ "type" := type ]}]> (instance dsa)).

Definition deposit : jsval :=
  VObj {[ "connector" := VStr "basic"; "method" := VStr "deposit";
          "args" := VArr [VStr "eth"; VNum 1] ]}.

Definition borrow : jsval :=
  VObj {[ "connector" := VStr "compound"; "method" := VStr "borrow";
          "args" := VArr [VStr "dai"; VNum 5] ]}.

(** A cast request: the [data] of a spell with two operations. *)
Definition request : gmap string jsval := {[ "data" := VArr [deposit; borrow] ]}.

(** An operation without [args]. *)
Definition no_args : gmap string jsval :=
  {[ "connector" := VStr "basic"; "method" := VStr "withdraw" ]}.

(** An operation without [args] whose [connector] is the empty string. *)
Definition blank_connector : gmap string jsval :=
  {[ "connector" := VStr EmptyString; "method" := VStr "withdraw" ]}.

(** An operation without [connector]. *)
Definition no_connector : gmap string jsval :=
  {[ "method" := VStr "deposit"; "args" := VArr [VStr "eth"; VNum 1] ]}.

(** A read request for a protocol the tables do not list. *)
Definition unlisted : gmap string jsval :=
  {[ "protocol" := VStr "compound"; "method" := VStr "getPosition";
     "args" := VArr [signer] ]}.

(** A contract that has the one method of the account resolver and
    answers every lookup with [null]. *)
Definition silent_resolver : contract :=
  {| methods := λ name,
       if String.eqb name "getAccountIdDetails"
       then Some (λ args, Normal {| encodeABI := Normal (VArr (VStr name :: args));
                                    call := Fulfilled VNull |})
       else None |}.

Definition silent_web3 (abi addr : jsval) : completion contract :=
  match abi with
  | VArr _ => Normal silent_resolver
  | _ => Throw missing_interface
  end.

(** The same world with another web3 and other answers from the helpers:
    the signer address, the transaction object, the submission, the account
    count and the gas estimate. *)
Definition world (web3 : jsval → jsval → completion contract)
    (address : promise) (txObj : jsval → promise)
    (sent count gas : promise) : Env :=
  {| address_genesis := genesis;
     address_core_index := index_address;
     address_read := {[ "core" := resolver_address ]};
     ABI_core_index := VArr [];
     ABI_core_account := VArr [];
     ABI_read := {[ "core" := VArr [] ]};
     Contract := web3;
     internal_getAddress := λ _, address;
     internal_getTxObj := λ _, txObj;
     internal_encodeSpells := λ _ _d, Normal (encoded (operations _d));
     castUtil_estimateGas := λ _ _, gas;
     txnUtil_send := λ _ _, sent;
     account_count := λ _, count;
     gnosisSafe_estimateGnosisSafeGas := λ _, Pending;
     gnosisSafe_createTransaction := λ _, Pending |}.

Definition unreachable : jsval := Error "connection not open".

(** A node whose every request fails. *)
Definition offline : Env :=
  world web3_Contract (Rejected unreachable) (λ _, Rejected unreachable)
        (Rejected unreachable) (Rejected unreachable) (Rejected unreachable).

(** A world where only the assembly of the transaction object fails. *)
Definition no_gas_price : jsval := Error "gasPrice is not defined".

Definition incomplete_tx : Env :=
  world web3_Contract (Fulfilled signer) (λ _, Rejected no_gas_price)
        (Fulfilled receipt) (Fulfilled (VNum accounts)) (Fulfilled (VNum 21000)).

(** A world where the transaction object is the descriptor itself and the
    node refuses the transaction. *)
Definition underpriced : jsval := Error "transaction underpriced".

Definition refusing : Env :=
  world web3_Contract (Fulfilled signer) (λ _d, Fulfilled _d)
        (Rejected underpriced) (Fulfilled (VNum accounts)) (Fulfilled (VNum 21000)).

(** A world whose resolver answers [null]. *)
Definition silent : Env :=
  world silent_web3 (Fulfilled signer) (λ _d, Fulfilled _d)
        (Fulfilled receipt) (Fulfilled (VNum accounts)) (Fulfilled (VNum 21000)).

(** A build request that names everything itself, the target included. *)
Definition authority : jsval := VStr "0x00000000000000000000000000000000000000bb".
Definition sender : jsval := VStr "0x00000000000000000000000000000000000000cc".
Definition elsewhere : jsval := VStr "0x00000000000000000000000000000000000000dd".
Definition affiliate : jsval := VStr "0x00000000000000000000000000000000000000ee".

Definition named : gmap string jsval :=
  {[ "authority" := authority; "from" := sender; "to" := elsewhere ]}.

(** The descriptors those requests turn into. *)
Definition built : gmap string jsval :=
  {[ "authority" := signer; "version" := VNum 1; "origin" := genesis;
     "from" := signer; "to" := index_address;
     "callData" := VArr [VStr "build"; signer; VNum 1; genesis] ]}.

Definition built_named : gmap string jsval :=
  {[ "authority" := authority; "version" := VNum 1; "origin" := genesis;
     "from" := sender; "to" := index_address;
     "callData" := VArr [VStr "build"; authority; VNum 1; genesis] ]}.

Definition cast_data : jsval :=
  VArr [VStr "cast";
        VArr [VStr "basic"; VStr "compound"];
        VArr [encodeMethod deposit; encodeMethod borrow];
        genesis].

Definition cast_descriptor : gmap string jsval :=
  <["to" := genesis]> (<["from" := signer]> (<["origin" := genesis]>
    (<["callData" := cast_data]> request))).

Definition routed_descriptor (type : jsval) : gmap string jsval :=
  <["type" := type]> cast_descriptor.

(** [castTxObj] fills in no sender. *)
Definition unsigned_descriptor (type : jsval) : gmap string jsval :=
  <["type" := type]> (<["to" := genesis]> (<["origin" := genesis]>
    (<["callData" := cast_data]> request))).

(** The transaction object the first world makes of a cast descriptor. *)
Definition cast_tx : jsval :=
  VObj {[ "from" := signer; "to" := genesis; "data" := cast_data;
          "value" := VNum 0 ]}.

(** A cast request that names its own target. *)
Definition redirected : gmap string jsval := <["to" := elsewhere]> request.

(** Read requests: a good one, one without [args], one for a method the
    resolver does not have. *)
Definition details_of_3 : gmap string jsval :=
  {[ "protocol" := VStr "core"; "method" := VStr "getAccountIdDetails";
     "args" := VArr [VNum 3] ]}.

Definition no_arguments : gmap string jsval :=
  {[ "protocol" := VStr "core"; "method" := VStr "getAccountIdDetails" ]}.

Definition no_such_method : gmap string jsval :=
  {[ "protocol" := VStr "core"; "method" := VStr "getAccountDetails";
     "args" := VArr [VNum 3] ]}.

(** An operation that has the three fields, with an empty method name. *)
Definition unnamed_method : gmap string jsval :=
  {[ "connector" := VStr "basic"; "method" := VStr "";
     "args" := VArr [VStr "eth"; VNum 1] ]}.

End Demo.

(* ===================================================================== *)
(** ** Facts about the runtime operations                                *)
(* ===================================================================== *)

Example ToNumber_decimal : ToNumber (VStr " 42 ") = Num 42.
Proof. reflexivity. Qed.

Example ToNumber_array : ToNumber (VArr [VNum 7]) = Num 7.
Proof. reflexivity. Qed.

Example ToNumber_fraction : ToNumber (VStr "-1.5e1") = Num (-15).
Proof. reflexivity. Qed.

Example ToNumber_radix :
  map StringToNumber ["0x1F"; "0o17"; "0b101"; "-0x1F"; "0x"] =
  [Num 31; Num 15; Num 5; NumNaN; NumNaN].
Proof. reflexivity. Qed.

Example ToNumber_rounds :
  StringToNumber "9007199254740993" = Num 9007199254740992 ∧
  StringToNumber "0.1" = Num (3602879701896397 # 36028797018963968).
Proof. split; reflexivity. Qed.

Example ToNumber_range :
  map StringToNumber ["1e309"; "-Infinity"; "1e-400"; "1e"; "12px"; " "] =
  [NumInf false; NumInf true; Num 0; NumNaN; NumNaN; Num 0].
Proof. reflexivity. Qed.

Example loose_eq_numeric_strings :
  map (λ s, loose_eq_num (VStr s) 0) ["0x0"; "0.0"; "-0"; "1e-400"; "0.5"] =
  [true; true; true; true; false] ∧
  map (λ s, loose_eq_num (VStr s) 1) ["1.0"; "0x1"; "1e0"; "1.5"] =
  [true; true; true; false].
Proof. split; reflexivity. Qed.

Example isFinite_numeric_strings :
  map (λ s, isFinite (VStr s)) ["1e3"; "0x10"; "1.5"; "1e400"; "Infinity"; "seven"] =
  [true; true; true; false; false; false].
Proof. reflexivity. Qed.

Example isFinite_word : isFinite (VStr (ToString (VBool true))) = false.
Proof. reflexivity. Qed.

Example loose_eq_string_zero : loose_eq_num (VStr "0") 0 = true.
Proof. reflexivity. Qed.

Example loose_eq_undefined : loose_eq_num VUndef 0 = false.
Proof. reflexivity. Qed.

Lemma index_defined res i :
  res ≠ VUndef → res ≠ VNull → ∃ v, index res i = Normal v.
Proof. destruct res; intros; try done; cbn; eauto. Qed.

Lemma field_absent (o : gmap string jsval) k : o !! k = None → field o k = VUndef.
Proof. unfold field. by intros ->. Qed.

Lemma field_insert_eq (o : gmap string jsval) k v : field (<[k := v]> o) k = v.
Proof. unfold field. by rewrite lookup_insert_eq. Qed.

Lemma field_insert_ne (o : gmap string jsval) k k' v :
  k ≠ k' → field (<[k := v]> o) k' = field o k'.
Proof. intros. unfold field. by rewrite lookup_insert_ne. Qed.

Lemma default_field_unset k v (d : gmap string jsval) :
  truthy (field d k) = false → default_field k v d = <[k := v]> d.
Proof. unfold default_field. by intros ->. Qed.

Lemma field_default_field_ne k k' v (d : gmap string jsval) :
  k ≠ k' → field (default_field k v d) k' = field d k'.
Proof.
  intros. unfold default_field. destruct (truthy _); [done|].
  by apply field_insert_ne.
Qed.

Lemma field_default_field_unset k v (d : gmap string jsval) :
  truthy (field d k) = false → field (default_field k v d) k = v.
Proof. intros H. rewrite default_field_unset by done. apply field_insert_eq. Qed.

(* ===================================================================== *)
(** ** Symbolic execution of the methods                                 *)
(* ===================================================================== *)

Ltac unfold_monad :=
  unfold run, result, events, final, async, new_Promise, then_, catch_,
    as_promise, drop, resolve, reject, settle, await, lift, emit, this,
    set_this, throw, bind, ret in *.

Ltac calls :=
  unfold Rev1.cast, Rev1.castTxObj, Rev1.estimateCastGas, Rev2.cast,
    Rev1.build, Rev1.buildTxObj, Rev1.build_call, Rev1.unbound, cast_call,
    getAddress, getTxObj, encodeSpells, sendTxn, new_Contract,
    contract_method, Rev1.instance_config, Rev1.this_gnosisSafe in *.

(** One case split on the answer of a collaborator. *)
Ltac step :=
  match goal with
  | |- context [match ?x with _ => _ end] =>
      lazymatch x with
      | internal_getAddress _ _ => destruct x eqn:?
      | internal_getTxObj _ _ _ => destruct x eqn:?
      | internal_encodeSpells _ _ _ => destruct x eqn:?
      | Contract _ _ _ => destruct x eqn:?
      | spread _ => destruct x eqn:?
      | methods _ _ => destruct x eqn:?
      | encodeABI _ => destruct x eqn:?
      | txnUtil_send _ _ _ => destruct x eqn:?
      | ?f _ =>
          lazymatch type of f with
          | list jsval → completion method_object => destruct x eqn:?
          end
      end
  end.

Ltac fields :=
  repeat first [rewrite field_insert_eq | rewrite field_insert_ne by done].

(** Membership of an event in an explicit trace. *)
Ltac in_trace H :=
  repeat (apply elem_of_cons in H as [H|H]; [try discriminate H|]);
  try (apply elem_of_nil in H; destruct H).

Ltac trace_has :=
  solve [repeat first [apply list_elem_of_here | apply list_elem_of_further]].

(** [read] touches neither the object it is called from nor the promise
    under construction around it. *)
Lemma read_frame {S} env _s (st : state S) :
  read env _s st =
    (State (self st) (trace st ++ (read_outcome env _s).1) (cell st),
     Ok (read_outcome env _s).2).
Proof.
  destruct st as [s tr c].
  unfold read_outcome, read, new_Contract, contract_method.
  unfold_monad. cbn.
  destruct (Contract env _ _) as [_c|e]; cbn; [|done].
  destruct (spread _) as [args|e]; cbn; [|done].
  destruct (methods _c _) as [f|]; cbn; [|by rewrite <- ?app_assoc].
  destruct (f args) as [m|e]; cbn; [|by rewrite <- ?app_assoc].
  destruct (call m); cbn; by rewrite <- ?app_assoc.
Qed.

(** The validation of the id (lines 90-98) reads and writes no state. *)
Lemma dsaId_pure _o (st : state DSA) :
  Rev1.dsaId _o st = (st, result (Rev1.dsaId _o st)).
Proof.
  unfold Rev1.dsaId. unfold_monad.
  destruct (String.eqb (typeof _o) "object"); cbn.
  - destruct (get _o "id") as [id|e]; cbn; [|done].
    destruct (truthy id); cbn; [|done].
    by destruct (isFinite _).
  - by destruct (isFinite _).
Qed.

Lemma setInstance_unfold env _o _c _id (st : state DSA) :
  result (Rev1.dsaId _o st) = Ok _id →
  Rev1.setInstance env _o _c st =
  async (new_Promise false (
      p <- read env (Rev1.details_request _id) ;;
      q <- then_ p (λ res,
             r0 <- lift (index res 0) ;; Rev1.set_instance_field "id" r0 ;;
             r1 <- lift (index res 1) ;; Rev1.set_instance_field "address" r1 ;;
             r2 <- lift (index res 2) ;; Rev1.set_instance_field "version" r2 ;;
             d <- this ;; resolve (VObj (instance d))) ;;
      catch_ q (λ err,
        count <- (emit Count ;; d <- this ;; await (account_count env d)) ;;
        if lt_number count (ToNumber _id)
        then reject Rev1.does_not_exist
        else reject err))%js) st.
Proof.
  intros H. unfold Rev1.setInstance, async. unfold bind at 1.
  rewrite dsaId_pure, H. done.
Qed.

Lemma setInstance_run_fulfilled env d _o _c _id res r0 r1 r2 :
  result (run (Rev1.dsaId _o) d) = Ok _id →
  lookup env _id = Fulfilled res →
  index res 0 = Normal r0 → index res 1 = Normal r1 → index res 2 = Normal r2 →
  run (Rev1.setInstance env _o _c) d =
    (State (with_instance d (populated d r0 r1 r2))
           (read_outcome env (Rev1.details_request _id)).1 Pending,
     Ok (Fulfilled (VObj (populated d r0 r1 r2)))).
Proof.
  intros Hid Hres H0 H1 H2. unfold run in *.
  rewrite (setInstance_unfold _ _ _ _ _ Hid).
  unfold async, new_Promise. unfold bind at 1. rewrite read_frame.
  fold (lookup env _id). rewrite Hres. cbn [self trace cell fst snd].
  unfold Rev1.set_instance_field, then_, as_promise.
  unfold bind at 2. rewrite H0. unfold_monad. cbn.
  rewrite H1. cbn. rewrite H2. cbn. done.
Qed.

Lemma setInstance_run_rejected env d _o _c _id err count :
  result (run (Rev1.dsaId _o) d) = Ok _id →
  lookup env _id = Rejected err →
  account_count env d = Fulfilled count →
  run (Rev1.setInstance env _o _c) d =
    (State d ((read_outcome env (Rev1.details_request _id)).1 ++ [Count]) Pending,
     Ok (Rejected (if lt_number count (ToNumber _id)
                   then Rev1.does_not_exist else err))).
Proof.
  intros Hid Hres Hcount. unfold run in *.
  rewrite (setInstance_unfold _ _ _ _ _ Hid).
  unfold async, new_Promise. unfold bind at 1. rewrite read_frame.
  fold (lookup env _id). rewrite Hres. cbn [self trace cell fst snd].
  unfold_monad; cbn; rewrite Hcount; cbn.
  by destruct (lt_number count (ToNumber _id)).
Qed.

(** When the count query fails as well, the handler of line 113 throws
    inside the promise chain: nothing settles the promise of
    [setInstance]. *)
Lemma setInstance_count_unavailable env d _o _c _id err e :
  result (run (Rev1.dsaId _o) d) = Ok _id →
  lookup env _id = Rejected err →
  account_count env d = Rejected e →
  run (Rev1.setInstance env _o _c) d =
    (State d ((read_outcome env (Rev1.details_request _id)).1
                ++ [Count; UnhandledRejection e]) Pending,
     Ok Pending).
Proof.
  intros Hid Hres Hcount. unfold run in *.
  rewrite (setInstance_unfold _ _ _ _ _ Hid).
  unfold async, new_Promise. unfold bind at 1. rewrite read_frame.
  fold (lookup env _id). rewrite Hres. cbn [self trace cell fst snd].
  unfold_monad; cbn; rewrite Hcount; cbn.
  by rewrite <- app_assoc.
Qed.

Lemma setInstance_count_silent env d _o _c _id err :
  result (run (Rev1.dsaId _o) d) = Ok _id →
  lookup env _id = Rejected err →
  account_count env d = Pending →
  run (Rev1.setInstance env _o _c) d =
    (State d ((read_outcome env (Rev1.details_request _id)).1 ++ [Count]) Pending,
     Ok Pending).
Proof.
  intros Hid Hres Hcount. unfold run in *.
  rewrite (setInstance_unfold _ _ _ _ _ Hid).
  unfold async, new_Promise. unfold bind at 1. rewrite read_frame.
  fold (lookup env _id). rewrite Hres. cbn [self trace cell fst snd].
  by unfold_monad; cbn; rewrite Hcount; cbn.
Qed.

(* ===================================================================== *)
(** ** [cast] and the routing type                                       *)
(* ===================================================================== *)




(** In that run the transaction object is obtained, the error is thrown
    inside the [async] executor of line 233, and the promise [cast]
    returned stays unsettled. *)
Example cast_invalid_type_run :
  let r := run (Rev1.cast Demo.env Demo.request) (Demo.routed (VNum 2)) in
  result r = Ok Pending ∧
  last (events r) = Some (UnhandledRejection Rev1.type_not_valid) ∧
  existsb is_submission (events r) = false.
Proof. repeat split; vm_compute; reflexivity. Qed.

(** With routing type 0 the first revision submits. *)
Example cast_direct_run :
  let r := run (Rev1.cast Demo.env Demo.request) (Demo.routed (VNum 0)) in
  result r = Ok (Fulfilled Demo.receipt) ∧
  existsb is_submission (events r) = true.
Proof. repeat split; vm_compute; reflexivity. Qed.

(** The test of line 239 is [_d.type == 0], so a routing type held as a
    string that reads as zero takes the direct path too. *)
Example cast_numeric_string_type_run :
  Forall (λ type,
    let r := run (Rev1.cast Demo.env Demo.request) (Demo.routed (VStr type)) in
    result r = Ok (Fulfilled Demo.receipt) ∧
    existsb is_submission (events r) = true) ["0"; "0x0"; "0.0"; " 0e3 "].
Proof. repeat constructor; vm_compute; reflexivity. Qed.

(* ===================================================================== *)
(** ** [build] and [buildTxObj]                                          *)
(* ===================================================================== *)

(** Without an authority in the parameter object, [buildTxObj] stops at
    line 187 on the undeclared [_addr], before it calls anything. *)
Lemma buildTxObj_needs_authority env d params :
  unset params "authority" →
  run (Rev1.buildTxObj env params) d =
    (State d [] Pending, Ok (Rejected (ReferenceError "_addr is not defined"))).
Proof.
  unfold unset. intros H. calls. unfold_monad. cbn. by rewrite H.
Qed.

(** With an authority and a sender given, both methods hand the same
    descriptor to [getTxObj]. *)
Lemma buildTxObj_agrees_when_given env d params _addr :
  internal_getAddress env d = Fulfilled _addr →
  truthy (field (default ∅ params) "authority") = true →
  truthy (field (default ∅ params) "from") = true →
  ∀ desc,
    GetTxObj desc ∈ events (run (Rev1.buildTxObj env params) d) ↔
    GetTxObj desc ∈ events (run (Rev1.build env params) d).
Proof.
  intros Haddr Ha Hf desc.
  assert (Rev1.build_fields env _addr d params =
          <["to" := address_core_index env]>
            (default_field "origin" (origin d)
               (default_field "version" (VNum 1) (default ∅ params)))) as Hd.
  { unfold Rev1.build_fields.
    unfold default_field at 4. rewrite Ha.
    unfold default_field at 1.
    by rewrite !field_default_field_ne, Hf by done. }
  calls. unfold_monad. cbn. rewrite Haddr, Ha. cbn. rewrite Hd.
  repeat (step; cbn).
  all: split; intros Hin; in_trace Hin; injection Hin as ->; trace_has.
Qed.

(** C2, at the failing input: called without a parameter object,
    [buildTxObj] rejects with a [ReferenceError] and assembles nothing,
    while [build] on the same facade hands [getTxObj] a descriptor whose
    authority and sender are the signer address, and resolves. *)
Theorem buildTxObj_unbound_addr :
  run (Rev1.buildTxObj Demo.env None) Demo.dsa =
    (State Demo.dsa [] Pending,
     Ok (Rejected (ReferenceError "_addr is not defined"))) ∧
  (let r := run (Rev1.build Demo.env None) Demo.dsa in
   result r = Ok (Fulfilled Demo.receipt) ∧
   ∃ desc, GetTxObj (VObj desc) ∈ events r ∧
           field desc "authority" = Demo.signer ∧
           field desc "from" = Demo.signer ∧
           field desc "version" = VNum 1 ∧
           field desc "origin" = Demo.genesis ∧
           field desc "to" = Demo.index_address).
Proof.
  split; [by apply buildTxObj_needs_authority|].
  split; [vm_compute; reflexivity|].
  eexists. split; [vm_compute; trace_has|].
  repeat split; vm_compute; reflexivity.
Qed.

(** The descriptor of [build] once every optional field was left unset. *)
Lemma build_fields_unset env d params _addr :
  unset params "authority" → unset params "version" →
  unset params "origin" → unset params "from" →
  let _d := Rev1.build_fields env _addr d params in
  field _d "authority" = _addr ∧ field _d "version" = VNum 1 ∧
  field _d "origin" = origin d ∧ field _d "from" = _addr.
Proof.
  intros Ha Hv Ho Hf _d. unfold unset in *. subst _d. unfold Rev1.build_fields.
  repeat split.
  - rewrite field_insert_ne by done.
    rewrite !field_default_field_ne by done.
    by apply field_default_field_unset.
  - rewrite field_insert_ne by done.
    rewrite !(field_default_field_ne _ "version") by done.
    apply field_default_field_unset.
    by rewrite field_default_field_ne.
  - rewrite field_insert_ne by done.
    rewrite (field_default_field_ne "from" "origin") by done.
    apply field_default_field_unset.
    by rewrite !field_default_field_ne.
  - rewrite field_insert_ne by done.
    apply field_default_field_unset.
    by rewrite !field_default_field_ne.
Qed.

(** C5: when [build] is called without a parameter object, or with the
    authority, version, origin and from fields unset, and the helper
    resolves the signer address, the build call is encoded with the signer
    address as authority, version 1 and the facade's current origin, and
    every descriptor handed to [getTxObj] carries the signer address as
    authority and as sender, that origin and version 1. *)
Theorem build_defaults env d params _addr _c :
  internal_getAddress env d = Fulfilled _addr →
  unset params "authority" → unset params "version" →
  unset params "origin" → unset params "from" →
  Contract env (ABI_core_index env) (address_core_index env) = Normal _c →
  let r := run (Rev1.build env params) d in
  (∃ rest, events r =
     GetAddress
       :: NewContract (ABI_core_index env) (address_core_index env)
       :: ContractMethod "build" [_addr; VNum 1; origin d]
       :: rest) ∧
  (∀ desc, GetTxObj desc ∈ events r →
     get desc "authority" = Normal _addr ∧ get desc "from" = Normal _addr ∧
     get desc "origin" = Normal (origin d) ∧ get desc "version" = Normal (VNum 1)).
Proof.
  intros Haddr Ha Hv Ho Hf Hc r.
  destruct (build_fields_unset env d params _addr Ha Hv Ho Hf) as (Fa & Fv & Fo & Ff).
  generalize (eq_refl r). generalize r at 1 3 4. subst r.
  calls. unfold_monad. cbn. rewrite Haddr. cbn. rewrite Hc. cbn.
  rewrite Fa, Fv, Fo.
  repeat (step; cbn).
  all: intros r ->; cbn; split; [eauto|].
  all: intros desc Hin; in_trace Hin.
  all: injection Hin as ->; cbn; fields; by rewrite Fa, Fv, Fo, Ff.
Qed.

Lemma build_defaults_witness :
  internal_getAddress Demo.env Demo.dsa = Fulfilled Demo.signer ∧
  unset None "authority" ∧ unset None "version" ∧
  unset None "origin" ∧ unset None "from" ∧
  let r := run (Rev1.build Demo.env None) Demo.dsa in
  (∃ rest, events r =
     GetAddress
       :: NewContract (ABI_core_index Demo.env) (address_core_index Demo.env)
       :: ContractMethod "build" [Demo.signer; VNum 1; origin Demo.dsa]
       :: rest) ∧
  (∀ desc, GetTxObj desc ∈ events r →
     get desc "authority" = Normal Demo.signer ∧
     get desc "from" = Normal Demo.signer ∧
     get desc "origin" = Normal (origin Demo.dsa) ∧
     get desc "version" = Normal (VNum 1)).
Proof.
  split; [reflexivity|]. repeat (split; [reflexivity|]).
  apply (build_defaults Demo.env Demo.dsa None Demo.signer Demo.a_contract);
    reflexivity.
Defined.

(** In that run the descriptor does reach [getTxObj] and is submitted. *)
Example build_run :
  let r := run (Rev1.build Demo.env None) Demo.dsa in
  existsb (λ ev, match ev with GetTxObj _ => true | _ => false end) (events r)
    = true ∧
  result r = Ok (Fulfilled Demo.receipt).
Proof. split; vm_compute; reflexivity. Qed.

(* ===================================================================== *)
(** ** [setInstance]                                                     *)
(* ===================================================================== *)

(** C3: for an account id that passes the checks of lines 90-98 and whose
    on-chain lookup is fulfilled with a tuple [res], [setInstance] leaves
    [res[0]], [res[1]] and [res[2]] in the id, address and version of the
    current instance and resolves with that instance. *)
Theorem setInstance_populates env d _o _c _id res :
  result (run (Rev1.dsaId _o) d) = Ok _id →
  lookup env _id = Fulfilled res →
  res ≠ VUndef → res ≠ VNull →
  let r := run (Rev1.setInstance env _o _c) d in
  index res 0 = Normal (field (instance (final r)) "id") ∧
  index res 1 = Normal (field (instance (final r)) "address") ∧
  index res 2 = Normal (field (instance (final r)) "version") ∧
  result r = Ok (Fulfilled (VObj (instance (final r)))).
Proof.
  intros Hid Hres Hu Hn r.
  destruct (index_defined res 0 Hu Hn) as [r0 H0].
  destruct (index_defined res 1 Hu Hn) as [r1 H1].
  destruct (index_defined res 2 Hu Hn) as [r2 H2].
  subst r.
  rewrite (setInstance_run_fulfilled _ _ _ _ _ _ _ _ _ Hid Hres H0 H1 H2).
  unfold final, result, populated; cbn.
  rewrite H0, H1, H2.
  rewrite field_insert_eq.
  rewrite (field_insert_ne _ "version" "address"), field_insert_eq by done.
  rewrite (field_insert_ne _ "version" "id"),
    (field_insert_ne _ "address" "id"), field_insert_eq by done.
  done.
Qed.

Lemma setInstance_populates_witness :
  result (run (Rev1.dsaId (VNum 7)) Demo.dsa) = Ok (VNum 7) ∧
  lookup Demo.env (VNum 7) = Fulfilled (Demo.details 7) ∧
  Demo.details 7 ≠ VUndef ∧ Demo.details 7 ≠ VNull ∧
  let r := run (Rev1.setInstance Demo.env (VNum 7) VUndef) Demo.dsa in
  index (Demo.details 7) 0 = Normal (field (instance (final r)) "id") ∧
  index (Demo.details 7) 1 = Normal (field (instance (final r)) "address") ∧
  index (Demo.details 7) 2 = Normal (field (instance (final r)) "version") ∧
  result r = Ok (Fulfilled (VObj (instance (final r)))).
Proof.
  split; [reflexivity|]. split; [reflexivity|].
  split; [discriminate|]. split; [discriminate|].
  apply (setInstance_populates Demo.env Demo.dsa (VNum 7) VUndef (VNum 7)
           (Demo.details 7)); [reflexivity | reflexivity | discriminate | discriminate].
Defined.

(** The instance that run selects. *)
Example setInstance_run :
  let r := run (Rev1.setInstance Demo.env (VNum 7) VUndef) Demo.dsa in
  field (instance (final r)) "id" = VNum 7 ∧
  field (instance (final r)) "address" = VStr "7" ∧
  field (instance (final r)) "version" = VNum 1 ∧
  field (instance (final r)) "config" = VUndef.
Proof. repeat split; vm_compute; reflexivity. Qed.

(** X31: when the on-chain lookup of [setInstance] is rejected with [err]
    and the account count query answers [count], the operation rejects with
    the "dsaId does not exist" message if [count < Number(_id)], and with
    [err] itself otherwise; the facade is left as it was. *)
Theorem setInstance_lookup_fails env d _o _c _id err count :
  result (run (Rev1.dsaId _o) d) = Ok _id →
  lookup env _id = Rejected err →
  account_count env d = Fulfilled count →
  let r := run (Rev1.setInstance env _o _c) d in
  (lt_number count (ToNumber _id) = true →
     result r = Ok (Rejected Rev1.does_not_exist)) ∧
  (lt_number count (ToNumber _id) = false →
     result r = Ok (Rejected err)) ∧
  final r = d.
Proof.
  intros Hid Hres Hcount r. subst r.
  rewrite (setInstance_run_rejected _ _ _ _ _ _ _ Hid Hres Hcount).
  repeat split; intros ->; done.
Qed.

Lemma setInstance_lookup_fails_witness :
  result (run (Rev1.dsaId (VStr "12")) Demo.dsa) = Ok (VStr "12") ∧
  lookup Demo.env (VStr "12") = Rejected Demo.reverted ∧
  account_count Demo.env Demo.dsa = Fulfilled (VNum 10) ∧
  let r := run (Rev1.setInstance Demo.env (VStr "12") VUndef) Demo.dsa in
  (lt_number (VNum 10) (ToNumber (VStr "12")) = true →
     result r = Ok (Rejected Rev1.does_not_exist)) ∧
  (lt_number (VNum 10) (ToNumber (VStr "12")) = false →
     result r = Ok (Rejected Demo.reverted)) ∧
  final r = Demo.dsa.
Proof.
  split; [reflexivity|]. split; [reflexivity|]. split; [reflexivity|].
  apply (setInstance_lookup_fails Demo.env Demo.dsa (VStr "12") VUndef
           (VStr "12") Demo.reverted (VNum 10)); reflexivity.
Defined.

(** C4, where the code departs from it: the handler of the failed lookup
    awaits [this.account.count()] unguarded (line 114), so when the lookup
    is rejected and the count query does not answer with a count (it is
    rejected too, or never settles), [setInstance] rejects with neither
    the "dsaId does not exist" message nor the lookup error: after asking
    for the count, the promise it returns stays unsettled. *)
Theorem setInstance_lookup_fails_unsettled env d _o _c _id err :
  result (run (Rev1.dsaId _o) d) = Ok _id →
  lookup env _id = Rejected err →
  (∀ count, account_count env d ≠ Fulfilled count) →
  let r := run (Rev1.setInstance env _o _c) d in
  Count ∈ events r ∧
  result r = Ok Pending ∧
  result r ≠ Ok (Rejected Rev1.does_not_exist) ∧
  result r ≠ Ok (Rejected err).
Proof.
  intros Hid Hres Hcount r. subst r.
  destruct (account_count env d) as [count|e|] eqn:Hc.
  - by destruct (Hcount count).
  - rewrite (setInstance_count_unavailable _ _ _ _ _ _ _ Hid Hres Hc).
    unfold events, result. cbn [fst snd trace].
    split; [|done]. apply elem_of_app. right. apply list_elem_of_here.
  - rewrite (setInstance_count_silent _ _ _ _ _ _ Hid Hres Hc).
    unfold events, result. cbn [fst snd trace].
    split; [|done]. apply elem_of_app. right. apply list_elem_of_here.
Qed.

Lemma setInstance_lookup_fails_unsettled_witness :
  result (run (Rev1.dsaId (VStr "12")) Demo.dsa) = Ok (VStr "12") ∧
  lookup Demo.offline (VStr "12") = Rejected Demo.reverted ∧
  (∀ count, account_count Demo.offline Demo.dsa ≠ Fulfilled count) ∧
  let r := run (Rev1.setInstance Demo.offline (VStr "12") VUndef) Demo.dsa in
  Count ∈ events r ∧
  result r = Ok Pending ∧
  result r ≠ Ok (Rejected Rev1.does_not_exist) ∧
  result r ≠ Ok (Rejected Demo.reverted).
Proof.
  split; [reflexivity|]. split; [reflexivity|]. split; [discriminate|].
  apply (setInstance_lookup_fails_unsettled Demo.offline Demo.dsa (VStr "12")
           VUndef (VStr "12") Demo.reverted); [reflexivity | reflexivity | discriminate].
Defined.

(** [isFinite(String(_id))] accepts every numeric literal: an id written
    in hexadecimal or with an exponent is looked up, not refused. *)
Example setInstance_numeric_string_run :
  Forall (λ _id,
    let r := run (Rev1.setInstance Demo.env (VStr _id) VUndef) Demo.dsa in
    field (instance (final r)) "id" = VNum 7) ["7"; "0x7"; "7.0"; "0.7e1"].
Proof. repeat constructor; vm_compute; reflexivity. Qed.

(** Both sides of the test of line 115: account 12 is beyond the ten
    accounts of the chain, account 0 is not. *)
Example setInstance_beyond_count :
  result (run (Rev1.setInstance Demo.env (VStr "12") VUndef) Demo.dsa)
    = Ok (Rejected Rev1.does_not_exist).
Proof. vm_compute; reflexivity. Qed.

Example setInstance_within_count :
  result (run (Rev1.setInstance Demo.env (VNum 0) VUndef) Demo.dsa)
    = Ok (Rejected Demo.reverted).
Proof. vm_compute; reflexivity. Qed.

(* ===================================================================== *)
(** ** [encodeSpells]                                                    *)
(* ===================================================================== *)

Lemma encodeSpells_from encodeMethod ops names datas :
  fold_left
    (λ (arrays : list jsval * list jsval) _s,
       (arrays.1 ++ [Internal.connector _s], arrays.2 ++ [encodeMethod _s]))
    ops (names, datas)
  = (names ++ map Internal.connector ops, datas ++ map encodeMethod ops).
Proof.
  revert names datas. induction ops as [|_s ops IH]; intros names datas; cbn.
  - by rewrite !app_nil_r.
  - by rewrite IH, <- !app_assoc.
Qed.

(** C6: the two arrays [encodeSpells] produces have the same length, the
    length of the operation list, and at every position [i] they hold the
    connector name and the encoded call data of the [i]-th operation. *)
Theorem encodeSpells_parallel encodeMethod (ops : list jsval) :
  let names := (Internal.encodeSpells encodeMethod ops).1 in
  let datas := (Internal.encodeSpells encodeMethod ops).2 in
  length names = length datas ∧
  length names = length ops ∧
  ∀ i _s, ops !! i = Some _s →
    names !! i = Some (Internal.connector _s) ∧
    datas !! i = Some (encodeMethod _s).
Proof.
  unfold Internal.encodeSpells. rewrite encodeSpells_from. cbn.
  rewrite !length_map. split; [done|]. split; [done|].
  intros i _s Hi. rewrite !list_lookup_fmap, Hi. done.
Qed.

Example encodeSpells_run :
  Internal.encodeSpells Demo.encodeMethod [Demo.deposit; Demo.borrow] =
    ([VStr "basic"; VStr "compound"],
     [VArr [VStr "deposit"; VArr [VStr "eth"; VNum 1]];
      VArr [VStr "borrow"; VArr [VStr "dai"; VNum 5]]]).
Proof. vm_compute; reflexivity. Qed.

(* ===================================================================== *)
(** ** [Spell().add]                                                     *)
(* ===================================================================== *)

Lemma truthy_has_field o k :
  truthy (field o k) = true → Spell.has_field (VObj o) k = true.
Proof. unfold Spell.has_field. cbn. by destruct (field o k). Qed.

(** [add] either appends a complete operation or changes nothing. *)
Lemma add_run _s sp :
  run (Spell.add _s) sp = (State (Spell.push _s sp) [] Pending, Ok VUndef)
    ∧ Spell.complete _s = true
  ∨ final (run (Spell.add _s) sp) = sp.
Proof.
  unfold Spell.add, Spell.complete, Spell.has_field. unfold_monad.
  destruct (get _s "connector") as [c|e] eqn:Hc; cbn; [|by right].
  destruct (truthy c) eqn:Tc; cbn; [|by right].
  destruct (get _s "method") as [m|e] eqn:Hm; cbn; [|by right].
  destruct (truthy m) eqn:Tm; cbn; [|by right].
  destruct (get _s "args") as [a|e] eqn:Ha; cbn; [|by right].
  destruct (truthy a) eqn:Ta; cbn; [|by right].
  left. split; [done|].
  by destruct c, m, a.
Qed.

Lemma add_incomplete _s sp :
  Spell.complete _s = false → final (run (Spell.add _s) sp) = sp.
Proof.
  intros H. destruct (add_run _s sp) as [[_ Hc]|Hs]; [congruence|done].
Qed.

Lemma add_preserves _s sp :
  Forall (λ op, Spell.complete op = true) (Spell.data sp) →
  Forall (λ op, Spell.complete op = true)
         (Spell.data (final (run (Spell.add _s) sp))).
Proof.
  intros Hsp. destruct (add_run _s sp) as [[-> Hc] | ->]; [|done].
  cbn. apply Forall_app. split; [done|]. by constructor.
Qed.

Lemma add_all_complete ops sp :
  Forall (λ op, Spell.complete op = true) (Spell.data sp) →
  Forall (λ op, Spell.complete op = true) (Spell.data (Spell.add_all ops sp)).
Proof.
  revert sp. induction ops as [|_s ops IH]; intros sp Hsp; [done|].
  cbn. apply IH. by apply (add_preserves _s sp).
Qed.

(** C7, as the code behaves: an operation without [connector] makes [add]
    log "connector not defined." and return [undefined]; nothing is
    thrown. *)
Lemma add_missing_connector_returns :
  run (Spell.add (VObj Demo.no_connector)) Spell.constructor =
    (State Spell.constructor [ConsoleError "connector not defined."] Pending,
     Ok VUndef).
Proof. vm_compute; reflexivity. Qed.

(** C7 (amended): for every operation object missing the connector, the
    method or the args field, [add] logs through [console.error] the
    "not defined" message of exactly one field, the first of connector,
    method, args (in that order) that is missing or otherwise falsy, and
    returns [undefined] without appending; it raises no error. *)
Theorem add_incomplete_logs (o : gmap string jsval) (sp : Spell.t) :
  Spell.complete (VObj o) = false →
  ∃ f, first_falsy o f ∧
       run (Spell.add (VObj o)) sp =
         (State sp [ConsoleError (f +:+ " not defined.")] Pending, Ok VUndef).
Proof.
  intros Hinc. unfold Spell.add, first_falsy. unfold_monad. cbn.
  destruct (truthy (field o "connector")) eqn:Tc; cbn;
    [|exists "connector"; split; [by exists [], ["method"; "args"]|done]].
  destruct (truthy (field o "method")) eqn:Tm; cbn;
    [|exists "method"; split;
      [exists ["connector"], ["args"]; by repeat constructor|done]].
  destruct (truthy (field o "args")) eqn:Ta; cbn;
    [|exists "args"; split;
      [exists ["connector"; "method"], []; by repeat constructor|done]].
  unfold Spell.complete in Hinc.
  by rewrite !truthy_has_field in Hinc.
Qed.

Lemma add_incomplete_logs_witness :
  Spell.complete (VObj Demo.no_args) = false ∧
  ∃ f, first_falsy Demo.no_args f ∧
       run (Spell.add (VObj Demo.no_args)) (Spell.push Demo.deposit Spell.constructor) =
         (State (Spell.push Demo.deposit Spell.constructor)
                [ConsoleError (f +:+ " not defined.")] Pending, Ok VUndef).
Proof.
  split; [reflexivity|].
  apply (add_incomplete_logs Demo.no_args
           (Spell.push Demo.deposit Spell.constructor)); reflexivity.
Defined.

(** The field named in the message is determined by the operation. *)
Lemma first_falsy_unique o f g : first_falsy o f → first_falsy o g → f = g.
Proof.
  intros (b1 & a1 & E1 & F1 & T1) (b2 & a2 & E2 & F2 & T2).
  destruct b1 as [|x1 [|y1 [|z1 [|w1 b1]]]]; simplify_eq/=;
    destruct b2 as [|x2 [|y2 [|z2 [|w2 b2]]]]; simplify_eq/=; try done;
    repeat match goal with
           | H : Forall _ (_ :: _) |- _ => apply Forall_cons in H as [? H]
           end; congruence.
Qed.

(** Which message is logged follows the order of the guards, not the
    field that is absent: without [args] and with an empty [connector],
    the connector message is the one logged; without [args] only, the args
    message. *)
Example add_reports_first_falsy :
  Spell.complete (VObj Demo.blank_connector) = false ∧
  Spell.has_field (VObj Demo.blank_connector) "connector" = true ∧
  events (run (Spell.add (VObj Demo.blank_connector)) Spell.constructor)
    = [ConsoleError "connector not defined."] ∧
  events (run (Spell.add (VObj Demo.no_args)) Spell.constructor)
    = [ConsoleError "args not defined."].
Proof. repeat split; vm_compute; reflexivity. Qed.

(** C8: on a spell built by any series of [add] calls, an [add] of an
    operation missing the connector, the method or the args field leaves
    the operation list as it was, and every operation in the list has all
    three fields. *)
Theorem add_keeps_spell_complete (ops : list jsval) (_s : jsval) :
  Spell.complete _s = false →
  let sp := Spell.add_all ops Spell.constructor in
  final (run (Spell.add _s) sp) = sp ∧
  Forall (λ op, Spell.complete op = true) (Spell.data sp).
Proof.
  intros H sp. split; [by apply add_incomplete|].
  apply add_all_complete. constructor.
Qed.

Lemma add_keeps_spell_complete_witness :
  Spell.complete (VObj Demo.no_args) = false ∧
  let sp := Spell.add_all [Demo.deposit; VObj Demo.no_connector; Demo.borrow]
                          Spell.constructor in
  final (run (Spell.add (VObj Demo.no_args)) sp) = sp ∧
  Forall (λ op, Spell.complete op = true) (Spell.data sp).
Proof.
  split; [reflexivity|].
  apply (add_keeps_spell_complete
           [Demo.deposit; VObj Demo.no_connector; Demo.borrow]
           (VObj Demo.no_args)); reflexivity.
Defined.

(** Of those three [add] calls the second one is dropped. *)
Example add_all_run :
  Spell.data (Spell.add_all [Demo.deposit; VObj Demo.no_connector; Demo.borrow]
                            Spell.constructor)
    = [Demo.deposit; Demo.borrow].
Proof. vm_compute; reflexivity. Qed.

(* ===================================================================== *)
(** ** [read]                                                            *)
(* ===================================================================== *)

(** C9: a read request whose protocol name is not in the ABI table makes
    [read] reject, given what web3 does without a JSON interface (its
    constructor throws, or the contract it builds has no methods); [read]
    does not resolve with [undefined]. *)
Theorem read_unknown_protocol {S} env (_s : gmap string jsval) (s : S) :
  (∀ addr, no_interface (Contract env VUndef addr)) →
  ABI_read env !! ToString (field _s "protocol") = None →
  ∃ e, result (run (read env _s) s) = Ok (Rejected e).
Proof.
  intros Hweb3 Habsent. unfold read, new_Contract, contract_method.
  rewrite (field_absent _ _ Habsent).
  specialize (Hweb3 (field (address_read env) (ToString (field _s "protocol")))).
  unfold_monad. cbn. revert Hweb3.
  destruct (Contract env VUndef _) as [_c|e]; cbn; [|eauto].
  intros Hweb3. destruct (spread _) as [args|e]; cbn; [|eauto].
  rewrite Hweb3. cbn. eauto.
Qed.

Lemma read_unknown_protocol_witness :
  (∀ addr, no_interface (Contract Demo.env VUndef addr)) ∧
  ABI_read Demo.env !! ToString (field Demo.unlisted "protocol") = None ∧
  ∃ e, result (run (read Demo.env Demo.unlisted) Demo.dsa) = Ok (Rejected e).
Proof.
  split; [intros addr; exact I|]. split; [reflexivity|].
  apply (read_unknown_protocol Demo.env Demo.unlisted Demo.dsa);
    [intros addr; exact I | reflexivity].
Defined.

Example read_unlisted_run :
  result (run (read Demo.env Demo.unlisted) Demo.dsa)
    = Ok (Rejected Demo.missing_interface).
Proof. vm_compute; reflexivity. Qed.

(* ===================================================================== *)
(** ** The default instance has no [config]                              *)
(* ===================================================================== *)

Lemma constructor_instance env cfg d :
  Rev1.constructor env cfg = inl d →
  instance d =
    {[ "id" := VNum 0; "address" := address_genesis env; "version" := VNum 1 ]}.
Proof.
  unfold Rev1.constructor. intros H.
  repeat match type of H with
         | context [if ?b then _ else _] => destruct b
         end; by inversion H.
Qed.

Lemma constructor_no_config env cfg d :
  Rev1.constructor env cfg = inl d → field (instance d) "config" = VUndef.
Proof. intros H. by rewrite (constructor_instance _ _ _ H). Qed.

Lemma estimateCastGas_no_config env d _d :
  field (instance d) "config" = VUndef →
  run (Rev1.estimateCastGas env _d) d =
    (State d [] Pending, Ok (Rejected undefined_config)).
Proof. intros H. calls. unfold_monad. cbn. by rewrite H. Qed.

Lemma castTxObj_no_config env d _d :
  field (instance d) "config" = VUndef →
  let r := run (Rev1.castTxObj env _d) d in
  events r = [EncodeSpells (VObj _d)] ∧
  (∀ _espell, internal_encodeSpells env d (VObj _d) = Normal _espell →
     result r = Ok (Rejected undefined_config)).
Proof.
  intros H r. generalize (eq_refl r). generalize r at 1 3 4. subst r.
  calls. unfold_monad. cbn.
  destruct (internal_encodeSpells _ _ _) eqn:He; cbn; rewrite ?H; cbn;
    intros r ->; split; try done.
Qed.

Lemma cast_no_config env d _d :
  field (instance d) "config" = VUndef →
  let r := run (Rev1.cast env _d) d in
  Forall (λ ev, is_preparation ev = true) (events r) ∧
  (∀ _addr _espell,
     internal_getAddress env d = Fulfilled _addr →
     internal_encodeSpells env d (VObj _d) = Normal _espell →
     events r = [GetAddress; EncodeSpells (VObj _d)] ∧
     result r = Ok (Rejected undefined_config)).
Proof.
  intros H r. generalize (eq_refl r). generalize r at 1 3 4 5. subst r.
  calls. unfold_monad. cbn.
  destruct (internal_getAddress _ _) eqn:Ha; cbn;
    [destruct (internal_encodeSpells _ _ _) eqn:He; cbn; rewrite ?H; cbn | |];
    intros r ->; (split; [repeat constructor | done]).
Qed.

(** [setInstance] writes the id, the address and the version and nothing
    else: a successful selection leaves the instance without [config]. *)
Lemma setInstance_installs_no_config env d _o _c _id res :
  result (run (Rev1.dsaId _o) d) = Ok _id →
  lookup env _id = Fulfilled res →
  res ≠ VUndef → res ≠ VNull →
  field (instance (final (run (Rev1.setInstance env _o _c) d))) "config"
    = field (instance d) "config".
Proof.
  intros Hid Hres Hu Hn.
  destruct (index_defined res 0 Hu Hn) as [r0 H0].
  destruct (index_defined res 1 Hu Hn) as [r1 H1].
  destruct (index_defined res 2 Hu Hn) as [r2 H2].
  rewrite (setInstance_run_fulfilled _ _ _ _ _ _ _ _ _ Hid Hres H0 H1 H2).
  unfold final, populated; cbn. by rewrite !field_insert_ne.
Qed.

(** C10, as the code behaves: on the facade the constructor returns, [cast]
    resolves the signer address and has the spells encoded before the read
    of [this.instance.config.type] throws. *)
Lemma cast_encodes_before_type_error :
  run (Rev1.cast Demo.env Demo.request) Demo.dsa =
    (State Demo.dsa [GetAddress; EncodeSpells (VObj Demo.request)] Pending,
     Ok (Rejected undefined_config)).
Proof. vm_compute; reflexivity. Qed.

(** C10 (amended): the instance the constructor installs has the fields
    id, address and version and no config. While it is selected,
    [estimateCastGas] rejects with a type error before it calls anything;
    [castTxObj] has the spells encoded and nothing else, and rejects with
    the type error once they are; [cast] does nothing beyond resolving the
    signer address and having the spells encoded, so that no call data is
    encoded, no transaction object is built and nothing is submitted, and
    rejects with the type error once both steps have succeeded. *)
Theorem no_config_type_error env cfg d _d :
  Rev1.constructor env cfg = inl d →
  dom (instance d) = {[ "id"; "address"; "version" ]} ∧
  run (Rev1.estimateCastGas env _d) d =
    (State d [] Pending, Ok (Rejected undefined_config)) ∧
  (let r := run (Rev1.castTxObj env _d) d in
   events r = [EncodeSpells (VObj _d)] ∧
   (∀ _espell, internal_encodeSpells env d (VObj _d) = Normal _espell →
      result r = Ok (Rejected undefined_config))) ∧
  (let r := run (Rev1.cast env _d) d in
   Forall (λ ev, is_preparation ev = true) (events r) ∧
   (∀ _addr _espell,
      internal_getAddress env d = Fulfilled _addr →
      internal_encodeSpells env d (VObj _d) = Normal _espell →
      events r = [GetAddress; EncodeSpells (VObj _d)] ∧
      result r = Ok (Rejected undefined_config))).
Proof.
  intros H. pose proof (constructor_no_config _ _ _ H) as Hc.
  split; [|split; [|split]].
  - rewrite (constructor_instance _ _ _ H).
    rewrite !dom_insert_L, ?dom_singleton_L, ?dom_empty_L. set_solver.
  - by apply estimateCastGas_no_config.
  - by apply castTxObj_no_config.
  - by apply cast_no_config.
Qed.

Lemma no_config_type_error_witness :
  Rev1.constructor Demo.env None = inl Demo.dsa ∧
  dom (instance Demo.dsa) = {[ "id"; "address"; "version" ]} ∧
  run (Rev1.estimateCastGas Demo.env Demo.request) Demo.dsa =
    (State Demo.dsa [] Pending, Ok (Rejected undefined_config)) ∧
  (let r := run (Rev1.castTxObj Demo.env Demo.request) Demo.dsa in
   events r = [EncodeSpells (VObj Demo.request)] ∧
   (∀ _espell,
      internal_encodeSpells Demo.env Demo.dsa (VObj Demo.request) = Normal _espell →
      result r = Ok (Rejected undefined_config))) ∧
  (let r := run (Rev1.cast Demo.env Demo.request) Demo.dsa in
   Forall (λ ev, is_preparation ev = true) (events r) ∧
   (∀ _addr _espell,
      internal_getAddress Demo.env Demo.dsa = Fulfilled _addr →
      internal_encodeSpells Demo.env Demo.dsa (VObj Demo.request) = Normal _espell →
      events r = [GetAddress; EncodeSpells (VObj Demo.request)] ∧
      result r = Ok (Rejected undefined_config))).
Proof.
  split; [reflexivity|].
  apply (no_config_type_error Demo.env None Demo.dsa Demo.request); reflexivity.
Defined.

(** In node mode without a private key the constructor gives up. *)
Example constructor_node_without_key :
  Rev1.constructor Demo.env
    (Some {| config_mode := Some "Node"; config_privateKey := None |})
  = inr "private-key-not-defined".
Proof. reflexivity. Qed.

Example constructor_node_key_prefixed :
  privateKey <$> (match Rev1.constructor Demo.env
                    (Some {| config_mode := Some "node";
                             config_privateKey := Some "ab12" |}) with
                  | inl d => Some d
                  | inr _ => None
                  end)
  = Some (VStr "0xab12").
Proof. reflexivity. Qed.

(* ===================================================================== *)
(** ** Further properties: tactics                                       *)
(* ===================================================================== *)

Ltac calls2 :=
  unfold Rev2.build, Rev2.buildTxObj, Rev2.castTxObj, Rev2.setOrigin,
    Rev2.estimateCastGas, Rev2.setAccount, Rev2.setInstance,
    Rev2.assign_undeclared, Rev1.setOrigin, Rev1.setAccount in *; calls.

Ltac recorded := vm_compute; trace_has.
Ltac differs := let H := fresh in intros H; vm_compute in H; discriminate H.

(* ===================================================================== *)
(** ** Further properties: the constructor *)
(* ===================================================================== *)

Lemma toLowerCase_nonempty m : toLowerCase m = "node" → truthy (VStr m) = true.
Proof. by destruct m. Qed.

Lemma substring_prefixed k : String.substring 0 2 ("0x" +:+ k) = "0x".
Proof. cbn. by destruct k. Qed.

(** X1: in both revisions, a configuration whose mode reads "node" in any
    letter case and whose private key is not empty gives a facade in node
    mode whose private key starts with "0x": the key as given when it
    already does, the key with "0x" put in front otherwise. *)
Theorem constructor_node_key env m k :
  toLowerCase m = "node" → k ≠ "" →
  let config := Some {| config_mode := Some m; config_privateKey := Some k |} in
  ∃ d k',
    Rev1.constructor env config = inl d ∧
    Rev2.constructor env config = inl d ∧
    mode d = "node" ∧
    privateKey d = VStr k' ∧
    String.substring 0 2 k' = "0x" ∧
    (String.substring 0 2 k = "0x" → k' = k) ∧
    (String.substring 0 2 k ≠ "0x" → k' = "0x" +:+ k).
Proof.
  intros Hm Hk config. subst config.
  unfold Rev1.constructor, Rev2.constructor. cbn [default from_option id config_mode config_privateKey opt_str].
  rewrite (toLowerCase_nonempty _ Hm), Hm. cbn [String.eqb Ascii.eqb Bool.eqb].
  assert (truthy (VStr k) = true) as -> by (by destruct k).
  cbn [negb].
  destruct (String.eqb (String.substring 0 2 k) "0x") eqn:E; cbn [negb].
  - apply String.eqb_eq in E.
    eexists _, k. repeat split; try done.
  - apply String.eqb_neq in E.
    eexists _, ("0x" +:+ k). repeat split; try done.
    apply substring_prefixed.
Qed.

Lemma constructor_node_key_witness :
  toLowerCase "Node" = "node" ∧ "ab12" ≠ "" ∧
  let config := Some {| config_mode := Some "Node"; config_privateKey := Some "ab12" |} in
  ∃ d k',
    Rev1.constructor Demo.env config = inl d ∧
    Rev2.constructor Demo.env config = inl d ∧
    mode d = "node" ∧
    privateKey d = VStr k' ∧
    String.substring 0 2 k' = "0x" ∧
    (String.substring 0 2 "ab12" = "0x" → k' = "ab12") ∧
    (String.substring 0 2 "ab12" ≠ "0x" → k' = "0x" +:+ "ab12").
Proof.
  split; [reflexivity|]. split; [differs|].
  apply (constructor_node_key Demo.env "Node" "ab12"); [reflexivity | differs].
Defined.

(** X2: in node mode (in any letter case) without a private key, or with
    an empty one, the constructor logs its message ("private-key-not-defined"
    in the first revision, "Private key is not defined." in the second) and
    returns before the facade is set up. *)
Theorem constructor_requires_key env m key :
  toLowerCase m = "node" → truthy (opt_str key) = false →
  let config := Some {| config_mode := Some m; config_privateKey := key |} in
  Rev1.constructor env config = inr "private-key-not-defined" ∧
  Rev2.constructor env config = inr "Private key is not defined.".
Proof.
  intros Hm Hk config. subst config.
  unfold Rev1.constructor, Rev2.constructor. cbn [default from_option id config_mode config_privateKey opt_str].
  rewrite (toLowerCase_nonempty _ Hm), Hm. cbn [String.eqb Ascii.eqb Bool.eqb].
  by rewrite Hk.
Qed.

Lemma constructor_requires_key_witness :
  toLowerCase "NODE" = "node" ∧ truthy (opt_str (Some "")) = false ∧
  let config := Some {| config_mode := Some "NODE"; config_privateKey := Some "" |} in
  Rev1.constructor Demo.env config = inr "private-key-not-defined" ∧
  Rev2.constructor Demo.env config = inr "Private key is not defined.".
Proof.
  split; [reflexivity|]. split; [reflexivity|].
  apply (constructor_requires_key Demo.env "NODE" (Some "")); reflexivity.
Defined.

(* ===================================================================== *)
(** ** Further properties: [estimateCastGas] *)
(* ===================================================================== *)

Lemma get_sibling v k k' x :
  get v k = Normal x → ∃ y, get v k' = Normal y.
Proof. destruct v; cbn; intros; try done; eauto. Qed.

(** X3: with a routing type loosely equal to 0 the first revision's
    [estimateCastGas] makes one call to [castUtil.estimateGas] and settles
    exactly as that call does: fulfilled with its gas, rejected with its
    error, or never. *)
Theorem estimateCastGas_direct env d _d type :
  routing_type d = Normal type →
  loose_eq_num type 0 = true →
  run (Rev1.estimateCastGas env _d) d =
    (State d [EstimateGas (VObj _d)] Pending,
     Ok (castUtil_estimateGas env d (VObj _d))).
Proof.
  unfold routing_type. intros Ht H0. calls. unfold_monad. cbn.
  rewrite Ht. cbn. rewrite H0. cbn.
  by destruct (castUtil_estimateGas env d (VObj _d)).
Qed.

Lemma estimateCastGas_direct_witness :
  let d := Demo.routed (VStr "0") in
  routing_type d = Normal (VStr "0") ∧
  loose_eq_num (VStr "0") 0 = true ∧
  run (Rev1.estimateCastGas Demo.env Demo.request) d =
    (State d [EstimateGas (VObj Demo.request)] Pending,
     Ok (castUtil_estimateGas Demo.env d (VObj Demo.request))).
Proof.
  split; [reflexivity|]. split; [reflexivity|].
  apply (estimateCastGas_direct Demo.env (Demo.routed (VStr "0")) Demo.request
           (VStr "0")); reflexivity.
Defined.

(** X4: with a routing type that equals neither 0 nor 1 the first
    revision's [estimateCastGas] calls nothing and returns a promise that
    never settles: no branch of lines 70-81 resolves or rejects it. *)
Theorem estimateCastGas_unrouted env d _d type :
  routing_type d = Normal type →
  loose_eq_num type 0 = false →
  loose_eq_num type 1 = false →
  run (Rev1.estimateCastGas env _d) d = (State d [] Pending, Ok Pending).
Proof.
  unfold routing_type. intros Ht H0 H1. calls. unfold_monad. cbn.
  rewrite Ht. cbn. by rewrite H0, H1.
Qed.

Lemma estimateCastGas_unrouted_witness :
  let d := Demo.routed (VNum 2) in
  routing_type d = Normal (VNum 2) ∧
  loose_eq_num (VNum 2) 0 = false ∧
  loose_eq_num (VNum 2) 1 = false ∧
  run (Rev1.estimateCastGas Demo.env Demo.request) d = (State d [] Pending, Ok Pending).
Proof.
  split; [reflexivity|]. split; [reflexivity|]. split; [reflexivity|].
  apply (estimateCastGas_unrouted Demo.env (Demo.routed (VNum 2)) Demo.request
           (VNum 2)); reflexivity.
Defined.

(** X5: with a routing type of 1 on a facade whose [gnosisSafe] field is
    undefined, as the constructor leaves it, the first revision's
    [estimateCastGas] estimates nothing: reading the method off the
    undefined field throws inside the async executor, and the promise never
    settles. *)
Theorem estimateCastGas_without_safe env d _d type :
  routing_type d = Normal type →
  loose_eq_num type 0 = false →
  loose_eq_num type 1 = true →
  gnosisSafe d = false →
  run (Rev1.estimateCastGas env _d) d =
    (State d [UnhandledRejection (TypeError "Cannot read properties of undefined")]
           Pending,
     Ok Pending).
Proof.
  unfold routing_type. intros Ht H0 H1 Hs.
  destruct (get_sibling _ _ "gnosisSafe" _ Ht) as [safe Hg].
  calls. unfold_monad. cbn.
  rewrite Ht. cbn. rewrite H0, H1. cbn. rewrite Hg. cbn. by rewrite Hs.
Qed.

Lemma estimateCastGas_without_safe_witness :
  let d := Demo.routed (VNum 1) in
  routing_type d = Normal (VNum 1) ∧
  loose_eq_num (VNum 1) 0 = false ∧
  loose_eq_num (VNum 1) 1 = true ∧
  gnosisSafe d = false ∧
  run (Rev1.estimateCastGas Demo.env Demo.request) d =
    (State d [UnhandledRejection (TypeError "Cannot read properties of undefined")]
           Pending,
     Ok Pending).
Proof.
  split; [reflexivity|]. split; [reflexivity|]. split; [reflexivity|].
  split; [reflexivity|].
  apply (estimateCastGas_without_safe Demo.env (Demo.routed (VNum 1)) Demo.request
           (VNum 1)); reflexivity.
Defined.

(** X6: the second revision's [estimateCastGas] reads no routing type: on
    every facade it makes one call to [castUtil.estimateGas] and settles
    exactly as that call does. *)
Theorem estimateCastGas_rev2 env d _d :
  run (Rev2.estimateCastGas env _d) d =
    (State d [EstimateGas (VObj _d)] Pending,
     Ok (castUtil_estimateGas env d (VObj _d))).
Proof.
  calls2. unfold_monad. cbn.
  by destruct (castUtil_estimateGas env d (VObj _d)).
Qed.

(* ===================================================================== *)
(** ** Further properties: [setInstance] and [setAccount] *)
(* ===================================================================== *)

Lemma setInstance_invalid env d _o _c e :
  result (run (Rev1.dsaId _o) d) = Thrown e →
  run (Rev1.setInstance env _o _c) d = (State d [] Pending, Ok (Rejected e)).
Proof.
  intros H. unfold run in *. unfold Rev1.setInstance, async. unfold bind at 1.
  by rewrite dsaId_pure, H.
Qed.

(** X7: an object argument whose [id] is missing or falsy (0 included)
    makes the first revision's [setInstance] reject with the error
    "`dsaId` is not defined." before any lookup, and leaves the facade as it
    was. *)
Theorem setInstance_id_not_defined env d (o : gmap string jsval) _c :
  truthy (field o "id") = false →
  run (Rev1.setInstance env (VObj o) _c) d =
    (State d [] Pending, Ok (Rejected (Error "`dsaId` is not defined."))).
Proof.
  intros H. apply setInstance_invalid.
  unfold Rev1.dsaId. unfold_monad. cbn. by rewrite H.
Qed.

Lemma setInstance_id_not_defined_witness :
  truthy (field ({[ "id" := VNum 0 ]} : gmap string jsval) "id") = false ∧
  run (Rev1.setInstance Demo.env (VObj {[ "id" := VNum 0 ]}) VUndef) Demo.dsa =
    (State Demo.dsa [] Pending, Ok (Rejected (Error "`dsaId` is not defined."))).
Proof.
  split; [reflexivity|].
  apply (setInstance_id_not_defined Demo.env Demo.dsa {[ "id" := VNum 0 ]} VUndef);
    reflexivity.
Defined.

(** X8: an argument that is not an object and whose string form is not a
    finite number makes the first revision's [setInstance] reject with the
    error "Invaild `dsaId`." before any lookup, and leaves the facade as it
    was. *)
Theorem setInstance_invalid_id env d _o _c :
  typeof _o ≠ "object" →
  isFinite (VStr (ToString _o)) = false →
  run (Rev1.setInstance env _o _c) d =
    (State d [] Pending, Ok (Rejected (Error "Invaild `dsaId`."))).
Proof.
  intros Ht H. apply setInstance_invalid.
  unfold Rev1.dsaId. unfold_monad.
  apply String.eqb_neq in Ht. rewrite Ht. cbn. by rewrite H.
Qed.

Lemma setInstance_invalid_id_witness :
  typeof (VStr "seven") ≠ "object" ∧
  isFinite (VStr (ToString (VStr "seven"))) = false ∧
  run (Rev1.setInstance Demo.env (VStr "seven") VUndef) Demo.dsa =
    (State Demo.dsa [] Pending, Ok (Rejected (Error "Invaild `dsaId`."))).
Proof.
  split; [differs|]. split; [reflexivity|].
  apply (setInstance_invalid_id Demo.env Demo.dsa (VStr "seven") VUndef);
    [differs | reflexivity].
Defined.

(** X9: when the lookup is fulfilled with [null] or [undefined], reading
    [res[0]] throws inside the [then] handler and the first revision's
    [setInstance] treats it as a failed lookup: the instance is unchanged
    and the promise rejects with the "dsaId does not exist" message if
    [count < Number(_id)], and with the type error otherwise. *)
Theorem setInstance_nullish_result env d _o _c _id res e count :
  result (run (Rev1.dsaId _o) d) = Ok _id →
  lookup env _id = Fulfilled res →
  index res 0 = Throw e →
  account_count env d = Fulfilled count →
  let r := run (Rev1.setInstance env _o _c) d in
  final r = d ∧
  result r = Ok (Rejected (if lt_number count (ToNumber _id)
                           then Rev1.does_not_exist else e)).
Proof.
  intros Hid Hres H0 Hcount r.
  assert (r = (State d ((read_outcome env (Rev1.details_request _id)).1 ++ [Count]) Pending,
     Ok (Rejected (if lt_number count (ToNumber _id)
                   then Rev1.does_not_exist else e)))) as ->; [|done].
  subst r. unfold run in *.
  rewrite (setInstance_unfold _ _ _ _ _ Hid).
  unfold async, new_Promise. unfold bind at 1. rewrite read_frame.
  fold (lookup env _id). rewrite Hres. cbn [self trace cell fst snd].
  unfold Rev1.set_instance_field, then_, as_promise.
  unfold bind at 2. rewrite H0. unfold_monad. cbn. rewrite Hcount. cbn.
  by destruct (lt_number count (ToNumber _id)).
Qed.

Lemma setInstance_nullish_result_witness :
  result (run (Rev1.dsaId (VNum 3)) Demo.dsa) = Ok (VNum 3) ∧
  lookup Demo.silent (VNum 3) = Fulfilled VNull ∧
  index VNull 0 = Throw (TypeError "Cannot read properties of null") ∧
  account_count Demo.silent Demo.dsa = Fulfilled (VNum 10) ∧
  let r := run (Rev1.setInstance Demo.silent (VNum 3) VUndef) Demo.dsa in
  final r = Demo.dsa ∧
  result r = Ok (Rejected (if lt_number (VNum 10) (ToNumber (VNum 3))
                           then Rev1.does_not_exist
                           else TypeError "Cannot read properties of null")).
Proof.
  split; [reflexivity|]. split; [reflexivity|]. split; [reflexivity|].
  split; [reflexivity|].
  apply (setInstance_nullish_result Demo.silent Demo.dsa (VNum 3) VUndef (VNum 3)
           VNull (TypeError "Cannot read properties of null") (VNum 10));
    reflexivity.
Defined.

(** X10: when the lookup is rejected and the account count query is
    rejected too, the [async] handler of line 113 throws before it calls
    [reject]: the promise of the first revision's [setInstance] never
    settles, the facade is unchanged and the count's error goes unhandled. *)
Theorem setInstance_unsettled_without_count env d _o _c _id err e :
  result (run (Rev1.dsaId _o) d) = Ok _id →
  lookup env _id = Rejected err →
  account_count env d = Rejected e →
  let r := run (Rev1.setInstance env _o _c) d in
  result r = Ok Pending ∧
  final r = d ∧
  last (events r) = Some (UnhandledRejection e).
Proof.
  intros Hid Hres Hcount r. subst r.
  rewrite (setInstance_count_unavailable _ _ _ _ _ _ _ Hid Hres Hcount).
  repeat split. unfold events. cbn.
  change [Count; UnhandledRejection e] with ([Count] ++ [UnhandledRejection e]).
  by rewrite app_assoc, last_snoc.
Qed.

Lemma setInstance_unsettled_without_count_witness :
  result (run (Rev1.dsaId (VNum 12)) Demo.dsa) = Ok (VNum 12) ∧
  lookup Demo.offline (VNum 12) = Rejected Demo.reverted ∧
  account_count Demo.offline Demo.dsa = Rejected Demo.unreachable ∧
  let r := run (Rev1.setInstance Demo.offline (VNum 12) VUndef) Demo.dsa in
  result r = Ok Pending ∧
  final r = Demo.dsa ∧
  last (events r) = Some (UnhandledRejection Demo.unreachable).
Proof.
  split; [reflexivity|]. split; [reflexivity|]. split; [reflexivity|].
  apply (setInstance_unsettled_without_count Demo.offline Demo.dsa (VNum 12) VUndef
           (VNum 12) Demo.reverted Demo.unreachable); reflexivity.
Defined.

(** X11: a successful selection in the first revision writes the id, the
    address and the version of the instance and nothing else: every other
    property of the instance (a [config] among them) and every other field
    of the facade stay as they were. *)
Theorem setInstance_keeps_the_rest env d _o _c _id res :
  result (run (Rev1.dsaId _o) d) = Ok _id →
  lookup env _id = Fulfilled res →
  res ≠ VUndef → res ≠ VNull →
  let d' := final (run (Rev1.setInstance env _o _c) d) in
  (∀ k, k ∉ ["id"; "address"; "version"] → instance d' !! k = instance d !! k) ∧
  origin d' = origin d ∧ mode d' = mode d ∧ privateKey d' = privateKey d ∧
  gnosisSafe d' = gnosisSafe d ∧ node d' = node d.
Proof.
  intros Hid Hres Hu Hn d'.
  destruct (index_defined res 0 Hu Hn) as [r0 H0].
  destruct (index_defined res 1 Hu Hn) as [r1 H1].
  destruct (index_defined res 2 Hu Hn) as [r2 H2].
  subst d'.
  rewrite (setInstance_run_fulfilled _ _ _ _ _ _ _ _ _ Hid Hres H0 H1 H2).
  unfold final, populated; cbn. split; [|done].
  intros k Hk. rewrite !lookup_insert_ne; [done|..]; intros <-; apply Hk; set_solver.
Qed.

Lemma setInstance_keeps_the_rest_witness :
  let d := Demo.routed (VNum 0) in
  result (run (Rev1.dsaId (VNum 7)) d) = Ok (VNum 7) ∧
  lookup Demo.env (VNum 7) = Fulfilled (Demo.details 7) ∧
  Demo.details 7 ≠ VUndef ∧ Demo.details 7 ≠ VNull ∧
  let d' := final (run (Rev1.setInstance Demo.env (VNum 7) VUndef) d) in
  (∀ k, k ∉ ["id"; "address"; "version"] → instance d' !! k = instance d !! k) ∧
  origin d' = origin d ∧ mode d' = mode d ∧ privateKey d' = privateKey d ∧
  gnosisSafe d' = gnosisSafe d ∧ node d' = node d.
Proof.
  split; [reflexivity|]. split; [reflexivity|].
  split; [discriminate|]. split; [discriminate|].
  apply (setInstance_keeps_the_rest Demo.env (Demo.routed (VNum 0)) (VNum 7) VUndef
           (VNum 7) (Demo.details 7));
    [reflexivity | reflexivity | discriminate | discriminate].
Defined.

(** X12: the second revision's [setInstance] stores into [_id], which it
    no longer declares: whatever the argument, it rejects without any lookup
    and leaves the facade unchanged; for an argument that is not an object
    the rejection is the [ReferenceError] of that store. *)
Theorem setInstance_rev2_never_looks_up env d _o _c :
  let r := run (Rev2.setInstance env _o _c) d in
  events r = [] ∧ final r = d ∧
  (∃ e, result r = Ok (Rejected e)) ∧
  (typeof _o ≠ "object" →
     result r = Ok (Rejected (ReferenceError "_id is not defined"))).
Proof.
  intros r. subst r. calls2. unfold_monad.
  destruct (String.eqb (typeof _o) "object") eqn:E; cbn.
  - destruct (get _o "id") as [id|e]; cbn.
    + destruct (truthy id); cbn; repeat split; eauto;
        intros H; by apply String.eqb_eq in E.
    + repeat split; eauto. intros H; by apply String.eqb_eq in E.
  - repeat split; eauto.
Qed.

(* ===================================================================== *)
(** ** Further properties: [build] and [buildTxObj] *)
(* ===================================================================== *)

Lemma field_default_field k v (d : gmap string jsval) :
  field (default_field k v d) k = if truthy (field d k) then field d k else v.
Proof.
  unfold default_field. destruct (truthy (field d k)) eqn:E; [done|].
  apply field_insert_eq.
Qed.

(** X14: when the signer address cannot be resolved, [build] and both
    revisions of [cast] stop there: the promise they return settles as the
    promise of [getAddress] does (rejected with its error, or never) and
    nothing is encoded, assembled or submitted. *)
Theorem address_unavailable env d params _d :
  (∀ v, internal_getAddress env d ≠ Fulfilled v) →
  run (Rev1.build env params) d =
    (State d [GetAddress] Pending, Ok (internal_getAddress env d)) ∧
  run (Rev1.cast env _d) d =
    (State d [GetAddress] Pending, Ok (internal_getAddress env d)) ∧
  run (Rev2.cast env _d) d =
    (State d [GetAddress] Pending, Ok (internal_getAddress env d)).
Proof.
  intros H. calls. unfold_monad. cbn.
  destruct (internal_getAddress env d) as [v| |]; [by destruct (H v)|done..].
Qed.

Lemma address_unavailable_witness :
  (∀ v, internal_getAddress Demo.offline Demo.dsa ≠ Fulfilled v) ∧
  run (Rev1.build Demo.offline None) Demo.dsa =
    (State Demo.dsa [GetAddress] Pending,
     Ok (internal_getAddress Demo.offline Demo.dsa)) ∧
  run (Rev1.cast Demo.offline Demo.request) Demo.dsa =
    (State Demo.dsa [GetAddress] Pending,
     Ok (internal_getAddress Demo.offline Demo.dsa)) ∧
  run (Rev2.cast Demo.offline Demo.request) Demo.dsa =
    (State Demo.dsa [GetAddress] Pending,
     Ok (internal_getAddress Demo.offline Demo.dsa)).
Proof.
  split; [intros v; discriminate|].
  apply (address_unavailable Demo.offline Demo.dsa None Demo.request).
  intros v; discriminate.
Defined.

(** X15: once [getTxObj] has fulfilled with the transaction object, [build]
    hands exactly that object to [sendTxn], once, and settles as the
    submission does: fulfilled with its receipt, rejected with its error, or
    never. *)
Theorem build_submits env d params desc txObj :
  let r := run (Rev1.build env params) d in
  GetTxObj desc ∈ events r →
  internal_getTxObj env d desc = Fulfilled txObj →
  result r = Ok (txnUtil_send env d txObj) ∧
  submissions (events r) = [SendTxn txObj].
Proof.
  intros r. generalize (eq_refl r). generalize r at 1 3 4 5. subst r.
  calls. unfold_monad. cbn.
  repeat (step; cbn).
  all: intros r -> Hin Htx; cbn in Hin; in_trace Hin.
  all: injection Hin as ->; try congruence.
  all: rewrite Htx in *; simplify_eq.
  all: cbn; match goal with H : txnUtil_send _ _ _ = _ |- _ => by rewrite H end.
Qed.

Lemma build_submits_witness :
  let r := run (Rev1.build Demo.refusing None) Demo.dsa in
  GetTxObj (VObj Demo.built) ∈ events r ∧
  internal_getTxObj Demo.refusing Demo.dsa (VObj Demo.built)
    = Fulfilled (VObj Demo.built) ∧
  result r = Ok (txnUtil_send Demo.refusing Demo.dsa (VObj Demo.built)) ∧
  submissions (events r) = [SendTxn (VObj Demo.built)].
Proof.
  split; [recorded|]. split; [reflexivity|].
  apply (build_submits Demo.refusing Demo.dsa None (VObj Demo.built)
           (VObj Demo.built)); [recorded | reflexivity].
Defined.

(** X16: when [getTxObj] rejects the descriptor, the [await] of line 170
    throws inside the [async] executor: [build] submits nothing and the
    promise it returned never settles; the error goes unhandled. *)
Theorem build_tx_unavailable env d params desc e :
  let r := run (Rev1.build env params) d in
  GetTxObj desc ∈ events r →
  internal_getTxObj env d desc = Rejected e →
  result r = Ok Pending ∧
  last (events r) = Some (UnhandledRejection e) ∧
  submissions (events r) = [].
Proof.
  intros r. generalize (eq_refl r). generalize r at 1 3 4 5. subst r.
  calls. unfold_monad. cbn.
  repeat (step; cbn).
  all: intros r -> Hin Htx; cbn in Hin; in_trace Hin.
  all: injection Hin as ->; try congruence.
  all: rewrite Htx in *; simplify_eq; done.
Qed.

Lemma build_tx_unavailable_witness :
  let r := run (Rev1.build Demo.incomplete_tx None) Demo.dsa in
  GetTxObj (VObj Demo.built) ∈ events r ∧
  internal_getTxObj Demo.incomplete_tx Demo.dsa (VObj Demo.built)
    = Rejected Demo.no_gas_price ∧
  result r = Ok Pending ∧
  last (events r) = Some (UnhandledRejection Demo.no_gas_price) ∧
  submissions (events r) = [].
Proof.
  split; [recorded|]. split; [reflexivity|].
  apply (build_tx_unavailable Demo.incomplete_tx Demo.dsa None (VObj Demo.built)
           Demo.no_gas_price); [recorded | reflexivity].
Defined.

(** X17: every descriptor [build] or [buildTxObj] hands to [getTxObj] is
    addressed to the index contract, whatever [to] the caller gave. *)
Theorem build_targets_index env d params desc :
  (GetTxObj desc ∈ events (run (Rev1.build env params) d) ∨
   GetTxObj desc ∈ events (run (Rev1.buildTxObj env params) d)) →
  get desc "to" = Normal (address_core_index env).
Proof.
  intros [Hin|Hin]; revert Hin.
  - calls. unfold Rev1.build_fields. unfold_monad. cbn.
    repeat (step; cbn).
    all: intros Hin; in_trace Hin; injection Hin as ->; cbn; by fields.
  - calls. unfold_monad. cbn.
    destruct (truthy (field (default ∅ params) "authority")); cbn;
      [|intros Hin; in_trace Hin].
    repeat (step; cbn).
    all: intros Hin; in_trace Hin; injection Hin as ->; cbn; by fields.
Qed.

Lemma build_targets_index_witness :
  (GetTxObj (VObj Demo.built_named)
     ∈ events (run (Rev1.build Demo.env (Some Demo.named)) Demo.dsa) ∨
   GetTxObj (VObj Demo.built_named)
     ∈ events (run (Rev1.buildTxObj Demo.env (Some Demo.named)) Demo.dsa)) ∧
  get (VObj Demo.built_named) "to" = Normal (address_core_index Demo.env).
Proof.
  split; [left; recorded|].
  apply (build_targets_index Demo.env Demo.dsa (Some Demo.named)
           (VObj Demo.built_named)).
  right; recorded.
Defined.

(** X18: after [setOrigin(o)], the only contract call [build] encodes is
    [build], and its origin argument is [o] when the parameter object leaves
    the origin unset and the caller's origin otherwise. *)
Theorem origin_after_setOrigin env d params o name args :
  let d' := final (run (Rev1.setOrigin o) d) in
  ContractMethod name args ∈ events (run (Rev1.build env params) d') →
  name = "build" ∧
  (unset params "origin" → args !! 2%nat = Some o) ∧
  (¬ unset params "origin" → args !! 2%nat = Some (field (default ∅ params) "origin")).
Proof.
  intros d'. subst d'. unfold unset. calls2. unfold Rev1.build_fields. unfold_monad. cbn.
  repeat (step; cbn).
  all: intros Hin; in_trace Hin.
  all: injection Hin as -> ->; split; [done|]; cbn.
  all: rewrite field_insert_ne by done.
  all: rewrite (field_default_field_ne "from" "origin") by done.
  all: rewrite field_default_field, !field_default_field_ne by done.
  all: destruct (truthy (field (default ∅ params) "origin")) eqn:E; split; intros H; done.
Qed.

Lemma origin_after_setOrigin_witness :
  let d' := final (run (Rev1.setOrigin Demo.affiliate) Demo.dsa) in
  ContractMethod "build" [Demo.signer; VNum 1; Demo.affiliate]
    ∈ events (run (Rev1.build Demo.env None) d') ∧
  "build" = "build" ∧
  (unset None "origin" →
     [Demo.signer; VNum 1; Demo.affiliate] !! 2%nat = Some Demo.affiliate) ∧
  (¬ unset None "origin" →
     [Demo.signer; VNum 1; Demo.affiliate] !! 2%nat
       = Some (field (default ∅ None) "origin")).
Proof.
  split; [recorded|].
  apply (origin_after_setOrigin Demo.env Demo.dsa None Demo.affiliate "build"
           [Demo.signer; VNum 1; Demo.affiliate]).
  recorded.
Defined.

(** X19: [buildTxObj] never submits a transaction and never resolves the
    signer address, whatever its argument and whatever the helpers answer. *)
Theorem buildTxObj_never_submits env d params :
  let r := run (Rev1.buildTxObj env params) d in
  submissions (events r) = [] ∧ GetAddress ∉ events r.
Proof.
  intros r. generalize (eq_refl r). generalize r at 1 3 4. subst r.
  calls. unfold_monad. cbn.
  destruct (truthy (field (default ∅ params) "authority")); cbn;
    [|intros r ->; split; [done|]; intros Hin; in_trace Hin].
  repeat (step; cbn).
  all: intros r ->; split; [done|]; intros Hin; cbn in Hin; in_trace Hin.
Qed.

(** X20: when [buildTxObj] reaches [getTxObj], it settles exactly as that
    call does, a rejection included, and the descriptor carries the sender
    the caller gave: no [from] is filled in. *)
Theorem buildTxObj_returns_txObj env d params desc :
  let r := run (Rev1.buildTxObj env params) d in
  GetTxObj desc ∈ events r →
  result r = Ok (internal_getTxObj env d desc) ∧
  get desc "from" = Normal (field (default ∅ params) "from").
Proof.
  intros r. generalize (eq_refl r). generalize r at 1 3 4. subst r.
  calls. unfold_monad. cbn.
  destruct (truthy (field (default ∅ params) "authority")) eqn:Ha; cbn;
    [|intros r -> Hin; in_trace Hin].
  repeat (step; cbn).
  all: intros r -> Hin; cbn in Hin; in_trace Hin.
  all: injection Hin as ->; cbn.
  all: match goal with H : internal_getTxObj _ _ _ = _ |- _ => rewrite H end.
  all: split; [done|]; fields; by rewrite !field_default_field_ne.
Qed.

Lemma buildTxObj_returns_txObj_witness :
  let r := run (Rev1.buildTxObj Demo.incomplete_tx (Some Demo.named)) Demo.dsa in
  GetTxObj (VObj Demo.built_named) ∈ events r ∧
  result r = Ok (internal_getTxObj Demo.incomplete_tx Demo.dsa (VObj Demo.built_named)) ∧
  get (VObj Demo.built_named) "from" = Normal (field (default ∅ (Some Demo.named)) "from").
Proof.
  split; [recorded|].
  apply (buildTxObj_returns_txObj Demo.incomplete_tx Demo.dsa (Some Demo.named)
           (VObj Demo.built_named)).
  recorded.
Defined.

(* ===================================================================== *)
(** ** Further properties: [cast] and [castTxObj] *)
(* ===================================================================== *)

Ltac send_answer :=
  match goal with H : txnUtil_send _ _ _ = _ |- _ => rewrite H end.

(** X21: with a routing type loosely equal to 0, once [getTxObj] has
    fulfilled with the transaction object the first revision's [cast] hands
    exactly that object to [sendTxn], once, and settles as the submission
    does. *)
Theorem cast_direct_submits env d _d type desc txObj :
  routing_type d = Normal type →
  loose_eq_num type 0 = true →
  let r := run (Rev1.cast env _d) d in
  GetTxObj desc ∈ events r →
  internal_getTxObj env d desc = Fulfilled txObj →
  result r = Ok (txnUtil_send env d txObj) ∧
  submissions (events r) = [SendTxn txObj].
Proof.
  intros Ht H0 r. unfold routing_type in Ht.
  generalize (eq_refl r). generalize r at 1 3 4 5. subst r.
  calls. unfold_monad. cbn.
  repeat (step; cbn; rewrite ?Ht; cbn; fields; rewrite ?H0; cbn).
  all: intros r -> Hin Htx; cbn in Hin; in_trace Hin.
  all: injection Hin as ->; try congruence.
  all: rewrite Htx in *; simplify_eq.
  all: cbn; by send_answer.
Qed.

Lemma cast_direct_submits_witness :
  let d := Demo.routed (VStr "0") in
  let desc := VObj (Demo.routed_descriptor (VStr "0")) in
  routing_type d = Normal (VStr "0") ∧
  loose_eq_num (VStr "0") 0 = true ∧
  let r := run (Rev1.cast Demo.refusing Demo.request) d in
  GetTxObj desc ∈ events r ∧
  internal_getTxObj Demo.refusing d desc = Fulfilled desc ∧
  result r = Ok (txnUtil_send Demo.refusing d desc) ∧
  submissions (events r) = [SendTxn desc].
Proof.
  split; [reflexivity|]. split; [reflexivity|].
  split; [recorded|]. split; [reflexivity|].
  apply (cast_direct_submits Demo.refusing (Demo.routed (VStr "0")) Demo.request
           (VStr "0") (VObj (Demo.routed_descriptor (VStr "0")))
           (VObj (Demo.routed_descriptor (VStr "0"))));
    [reflexivity | reflexivity | recorded | reflexivity].
Defined.

(** X22: with a routing type of 1 on a facade whose [gnosisSafe] field is
    undefined, as the constructor leaves it, the first revision's [cast]
    submits nothing; once the transaction object is obtained, the promise is
    rejected with the node-mode message if [this.node] equals "node" and
    never settles otherwise. *)
Theorem cast_without_safe env d _d type :
  routing_type d = Normal type →
  loose_eq_num type 0 = false →
  loose_eq_num type 1 = true →
  gnosisSafe d = false →
  let r := run (Rev1.cast env _d) d in
  submissions (events r) = [] ∧
  (∀ desc txObj,
     GetTxObj desc ∈ events r →
     internal_getTxObj env d desc = Fulfilled txObj →
     result r = Ok (if loose_eq_str (node d) "node"
                    then Rejected Rev1.not_on_node else Pending)).
Proof.
  intros Ht H0 H1 Hs r. unfold routing_type in Ht.
  destruct (get_sibling _ _ "gnosisSafe" _ Ht) as [safe Hg].
  generalize (eq_refl r). generalize r at 1 3 4 5. subst r.
  calls. unfold_monad. cbn.
  repeat (step; cbn; rewrite ?Ht; cbn; fields; rewrite ?H0, ?H1; cbn).
  all: try (destruct (loose_eq_str (node d) "node"); cbn; rewrite Hg; cbn;
            destruct (truthy safe); cbn; rewrite ?Hs; cbn).
  all: intros r ->; split; [done|].
  all: intros desc tx Hin Htx; cbn in Hin; in_trace Hin.
  all: try (injection Hin as ->; congruence).
  all: done.
Qed.

Lemma cast_without_safe_witness :
  let d := Demo.routed (VNum 1) in
  routing_type d = Normal (VNum 1) ∧
  loose_eq_num (VNum 1) 0 = false ∧
  loose_eq_num (VNum 1) 1 = true ∧
  gnosisSafe d = false ∧
  let r := run (Rev1.cast Demo.env Demo.request) d in
  submissions (events r) = [] ∧
  (∀ desc txObj,
     GetTxObj desc ∈ events r →
     internal_getTxObj Demo.env d desc = Fulfilled txObj →
     result r = Ok (if loose_eq_str (node d) "node"
                    then Rejected Rev1.not_on_node else Pending)).
Proof.
  split; [reflexivity|]. split; [reflexivity|]. split; [reflexivity|].
  split; [reflexivity|].
  apply (cast_without_safe Demo.env (Demo.routed (VNum 1)) Demo.request (VNum 1));
    reflexivity.
Defined.

(** X23: on every facade, with or without a [config], once [getTxObj] has
    fulfilled with the transaction object the second revision's [cast] hands
    exactly that object to [sendTxn], once, and settles as the submission
    does. *)
Theorem cast_rev2_submits env d _d desc txObj :
  let r := run (Rev2.cast env _d) d in
  GetTxObj desc ∈ events r →
  internal_getTxObj env d desc = Fulfilled txObj →
  result r = Ok (txnUtil_send env d txObj) ∧
  submissions (events r) = [SendTxn txObj].
Proof.
  intros r.
  generalize (eq_refl r). generalize r at 1 3 4 5. subst r.
  calls. unfold_monad. cbn.
  repeat (step; cbn).
  all: intros r -> Hin Htx; cbn in Hin; in_trace Hin.
  all: injection Hin as ->; try congruence.
  all: rewrite Htx in *; simplify_eq.
  all: cbn; by send_answer.
Qed.

Lemma cast_rev2_submits_witness :
  let r := run (Rev2.cast Demo.env Demo.request) Demo.dsa in
  GetTxObj (VObj Demo.cast_descriptor) ∈ events r ∧
  internal_getTxObj Demo.env Demo.dsa (VObj Demo.cast_descriptor)
    = Fulfilled Demo.cast_tx ∧
  result r = Ok (txnUtil_send Demo.env Demo.dsa Demo.cast_tx) ∧
  submissions (events r) = [SendTxn Demo.cast_tx].
Proof.
  split; [recorded|]. split; [reflexivity|].
  apply (cast_rev2_submits Demo.env Demo.dsa Demo.request
           (VObj Demo.cast_descriptor) Demo.cast_tx); [recorded | reflexivity].
Defined.

(** X24: when [getTxObj] rejects the descriptor, the second revision's
    [cast] submits nothing and the promise it returned never settles; the
    error goes unhandled. *)
Theorem cast_tx_unavailable env d _d desc e :
  let r := run (Rev2.cast env _d) d in
  GetTxObj desc ∈ events r →
  internal_getTxObj env d desc = Rejected e →
  result r = Ok Pending ∧
  last (events r) = Some (UnhandledRejection e) ∧
  submissions (events r) = [].
Proof.
  intros r.
  generalize (eq_refl r). generalize r at 1 3 4 5. subst r.
  calls. unfold_monad. cbn.
  repeat (step; cbn).
  all: intros r -> Hin Htx; cbn in Hin; in_trace Hin.
  all: injection Hin as ->; try congruence.
  all: rewrite Htx in *; simplify_eq; done.
Qed.

Lemma cast_tx_unavailable_witness :
  let r := run (Rev2.cast Demo.incomplete_tx Demo.request) Demo.dsa in
  GetTxObj (VObj Demo.cast_descriptor) ∈ events r ∧
  internal_getTxObj Demo.incomplete_tx Demo.dsa (VObj Demo.cast_descriptor)
    = Rejected Demo.no_gas_price ∧
  result r = Ok Pending ∧
  last (events r) = Some (UnhandledRejection Demo.no_gas_price) ∧
  submissions (events r) = [].
Proof.
  split; [recorded|]. split; [reflexivity|].
  apply (cast_tx_unavailable Demo.incomplete_tx Demo.dsa Demo.request
           (VObj Demo.cast_descriptor) Demo.no_gas_price); [recorded | reflexivity].
Defined.

(** X25: [castTxObj] never submits a transaction and never resolves the
    signer address, whatever its argument and whatever the helpers answer. *)
Theorem castTxObj_never_submits env d _d :
  let r := run (Rev1.castTxObj env _d) d in
  submissions (events r) = [] ∧ GetAddress ∉ events r.
Proof.
  intros r. generalize (eq_refl r). generalize r at 1 3 4. subst r.
  calls. unfold_monad. cbn.
  destruct (internal_encodeSpells _ _ _); cbn;
    [|intros r ->; split; [done|]; intros Hin; in_trace Hin].
  destruct (get (field (instance d) "config") "type"); cbn;
    [|intros r ->; split; [done|]; intros Hin; in_trace Hin].
  repeat (step; cbn).
  all: intros r ->; split; [done|]; intros Hin; cbn in Hin; in_trace Hin.
Qed.

(** X26: when [castTxObj] reaches [getTxObj], it settles exactly as that
    call does, and the descriptor carries the routing type of the selected
    instance in its [type] field. *)
Theorem castTxObj_returns_txObj env d _d desc :
  let r := run (Rev1.castTxObj env _d) d in
  GetTxObj desc ∈ events r →
  result r = Ok (internal_getTxObj env d desc) ∧
  get desc "type" = routing_type d.
Proof.
  intros r. generalize (eq_refl r). generalize r at 1 3 4. subst r.
  unfold routing_type.
  calls. unfold_monad. cbn.
  destruct (internal_encodeSpells _ _ _); cbn;
    [|intros r -> Hin; in_trace Hin].
  destruct (get (field (instance d) "config") "type"); cbn;
    [|intros r -> Hin; in_trace Hin].
  repeat (step; cbn).
  all: intros r -> Hin; cbn in Hin; in_trace Hin.
  all: injection Hin as ->; cbn.
  all: match goal with H : internal_getTxObj _ _ _ = _ |- _ => rewrite H end.
  all: split; [done|]; by fields.
Qed.

Lemma castTxObj_returns_txObj_witness :
  let d := Demo.routed (VNum 0) in
  let desc := VObj (Demo.unsigned_descriptor (VNum 0)) in
  let r := run (Rev1.castTxObj Demo.env Demo.request) d in
  GetTxObj desc ∈ events r ∧
  result r = Ok (internal_getTxObj Demo.env d desc) ∧
  get desc "type" = routing_type d.
Proof.
  split; [recorded|].
  apply (castTxObj_returns_txObj Demo.env (Demo.routed (VNum 0)) Demo.request
           (VObj (Demo.unsigned_descriptor (VNum 0)))).
  recorded.
Defined.

(** X27: [cast] (both revisions) and [castTxObj] build their contract with
    the account interface at the address of the selected instance, whatever
    [to] the request names. *)
Theorem cast_contract_at_instance env d _d abi addr :
  (NewContract abi addr ∈ events (run (Rev1.cast env _d) d) ∨
   NewContract abi addr ∈ events (run (Rev2.cast env _d) d) ∨
   NewContract abi addr ∈ events (run (Rev1.castTxObj env _d) d)) →
  abi = ABI_core_account env ∧ addr = field (instance d) "address".
Proof.
  intros [Hin|[Hin|Hin]]; revert Hin; calls; unfold_monad; cbn.
  - destruct (internal_getAddress _ _); cbn; try (intros Hin; by in_trace Hin).
    destruct (internal_encodeSpells _ _ _); cbn; try (intros Hin; by in_trace Hin).
    destruct (get (field (instance d) "config") "type"); cbn;
      try (intros Hin; by in_trace Hin).
    repeat first
      [ step; cbn
      | match goal with
        | |- context [if ?b then _ else _] => destruct b; cbn
        | |- context [match get ?a ?b with _ => _ end] => destruct (get a b); cbn
        | |- context [match gnosisSafe_createTransaction ?a ?b with _ => _ end] =>
            destruct (gnosisSafe_createTransaction a b); cbn
        end ].
    all: intros Hin; in_trace Hin.
    all: by injection Hin as -> ->.
  - repeat (step; cbn).
    all: intros Hin; in_trace Hin.
    all: by injection Hin as -> ->.
  - destruct (internal_encodeSpells _ _ _); cbn; try (intros Hin; by in_trace Hin).
    destruct (get (field (instance d) "config") "type"); cbn;
      try (intros Hin; by in_trace Hin).
    repeat (step; cbn).
    all: intros Hin; in_trace Hin.
    all: by injection Hin as -> ->.
Qed.

Lemma cast_contract_at_instance_witness :
  (NewContract (VArr []) Demo.genesis
     ∈ events (run (Rev1.cast Demo.env Demo.redirected) Demo.dsa) ∨
   NewContract (VArr []) Demo.genesis
     ∈ events (run (Rev2.cast Demo.env Demo.redirected) Demo.dsa) ∨
   NewContract (VArr []) Demo.genesis
     ∈ events (run (Rev1.castTxObj Demo.env Demo.redirected) Demo.dsa)) ∧
  VArr [] = ABI_core_account Demo.env ∧
  Demo.genesis = field (instance Demo.dsa) "address".
Proof.
  split; [right; left; recorded|].
  apply (cast_contract_at_instance Demo.env Demo.dsa Demo.redirected (VArr [])
           Demo.genesis).
  right; left; recorded.
Defined.

(* ===================================================================== *)
(** ** Further properties: [Spell()] and [read] *)
(* ===================================================================== *)

Lemma add_step _s sp :
  final (run (Spell.add _s) sp) = if accepted _s then Spell.push _s sp else sp.
Proof.
  unfold Spell.add, accepted. unfold_monad.
  destruct (get _s "connector") as [c|e]; cbn; [|done].
  destruct (truthy c); cbn; [|by destruct (get _s "method"), (get _s "args")].
  destruct (get _s "method") as [m|e]; cbn; [|done].
  destruct (truthy m); cbn; [|by destruct (get _s "args")].
  destruct (get _s "args") as [a|e]; cbn; [|done].
  by destruct (truthy a).
Qed.

(** X28: after any series of [add] calls a spell holds, after what it held
    before and in the order they were added, exactly the operations whose
    connector, method and args are all truthy; the others are dropped. *)
Theorem spell_keeps_accepted (ops : list jsval) (sp : Spell.t) :
  Spell.data (Spell.add_all ops sp) = Spell.data sp ++ List.filter accepted ops.
Proof.
  revert sp. induction ops as [|_s ops IH]; intros sp; cbn.
  - by rewrite app_nil_r.
  - fold (run (Spell.add _s) sp). 
    change (fold_left _ ops ?x) with (Spell.add_all ops x).
    rewrite IH, add_step.
    destruct (accepted _s); [|done]. cbn. by rewrite <- app_assoc.
Qed.

(** X29: when web3 builds the contract, the arguments spread and the
    method exists, [read] makes that one call with the arguments in order
    and settles exactly as the call does, leaving the object it was called
    from untouched. *)
Theorem read_passes_through {S} env (_s : gmap string jsval) (s : S) _c args f m :
  let protocol := ToString (field _s "protocol") in
  let name := ToString (field _s "method") in
  Contract env (field (ABI_read env) protocol) (field (address_read env) protocol)
    = Normal _c →
  spread (field _s "args") = Normal args →
  methods _c name = Some f →
  f args = Normal m →
  run (read env _s) s =
    (State s [NewContract (field (ABI_read env) protocol)
                          (field (address_read env) protocol);
              ContractMethod name args] Pending,
     Ok (call m)).
Proof.
  intros protocol name Hc Ha Hm Hf. subst protocol name.
  unfold read, new_Contract, contract_method. unfold_monad. cbn.
  rewrite Hc. cbn. rewrite Ha. cbn. rewrite Hm, Hf. cbn.
  by destruct (call m).
Qed.

Lemma read_passes_through_witness :
  let f := λ args, Normal {| encodeABI := Normal (VArr (VStr "getAccountIdDetails" :: args));
                            call := Demo.lookup args |} in
  let m := {| encodeABI := Normal (VArr [VStr "getAccountIdDetails"; VNum 3]);
              call := Demo.lookup [VNum 3] |} in
  let protocol := ToString (field Demo.details_of_3 "protocol") in
  let name := ToString (field Demo.details_of_3 "method") in
  Contract Demo.env (field (ABI_read Demo.env) protocol)
           (field (address_read Demo.env) protocol) = Normal Demo.a_contract ∧
  spread (field Demo.details_of_3 "args") = Normal [VNum 3] ∧
  methods Demo.a_contract name = Some f ∧
  f [VNum 3] = Normal m ∧
  run (read Demo.env Demo.details_of_3) Demo.dsa =
    (State Demo.dsa [NewContract (field (ABI_read Demo.env) protocol)
                                 (field (address_read Demo.env) protocol);
                     ContractMethod name [VNum 3]] Pending,
     Ok (call m)).
Proof.
  split; [reflexivity|]. split; [reflexivity|]. split; [reflexivity|].
  split; [reflexivity|].
  apply (read_passes_through Demo.env Demo.details_of_3 Demo.dsa Demo.a_contract
           [VNum 3]
           (λ args, Normal {| encodeABI := Normal (VArr (VStr "getAccountIdDetails" :: args));
                              call := Demo.lookup args |})
           {| encodeABI := Normal (VArr [VStr "getAccountIdDetails"; VNum 3]);
              call := Demo.lookup [VNum 3] |}); reflexivity.
Defined.

(** X30: a read request whose [args] cannot be spread (it is missing, for
    one) is rejected with the type error of the spread, and no contract
    method is invoked. *)
Theorem read_without_args {S} env (_s : gmap string jsval) (s : S) _c e :
  let protocol := ToString (field _s "protocol") in
  Contract env (field (ABI_read env) protocol) (field (address_read env) protocol)
    = Normal _c →
  spread (field _s "args") = Throw e →
  run (read env _s) s =
    (State s [NewContract (field (ABI_read env) protocol)
                          (field (address_read env) protocol)] Pending,
     Ok (Rejected e)).
Proof.
  intros protocol Hc Ha. subst protocol.
  unfold read, new_Contract, contract_method. unfold_monad. cbn.
  rewrite Hc. cbn. by rewrite Ha.
Qed.

Lemma read_without_args_witness :
  let protocol := ToString (field Demo.no_arguments "protocol") in
  Contract Demo.env (field (ABI_read Demo.env) protocol)
           (field (address_read Demo.env) protocol) = Normal Demo.a_contract ∧
  spread (field Demo.no_arguments "args") = Throw (TypeError "value is not iterable") ∧
  run (read Demo.env Demo.no_arguments) Demo.dsa =
    (State Demo.dsa [NewContract (field (ABI_read Demo.env) protocol)
                                 (field (address_read Demo.env) protocol)] Pending,
     Ok (Rejected (TypeError "value is not iterable"))).
Proof.
  split; [reflexivity|]. split; [reflexivity|].
  apply (read_without_args Demo.env Demo.no_arguments Demo.dsa Demo.a_contract
           (TypeError "value is not iterable")); reflexivity.
Defined.
